(** * Yahoo Sender Hub scraper: persistence, snapshot merge, worker loop and
    supervisor of [src/scraper/yahoo_persistent_enhanced_complete.py]

    The development embeds the orchestration and persistence code of the
    scraper as Rocq functions and states the properties of the specification
    over them.

    - [Py]: the Python values that travel in a [stats] dictionary.
    - [Database]: [DatabaseManager] over an explicit PostgreSQL store.
    - [Snapshot]: [FileManager.save_domain_json] and
      [FileManager.calculate_aggregated_metrics] over an explicit file store.
    - [Worker]: the cycle loop of [PersistentAccountScraper].
    - [Supervisor]: [SimultaneousPersistentManager].
    - [Sessions]: the audit tables written by [start_scraping_session] and
      [update_scraping_session].
    - [Accounts]: [AccountManager.load_accounts].

    Conventions.  Python numbers are exact rationals ([Qc]); the rounding of
    binary floating point is outside the model.  Everything the code reads
    from its surroundings (the clock, whether the database server answers,
    the outcome of a scrape cycle, the liveness of a thread) is an explicit
    input of the function that reads it. *)

From Stdlib Require Import QArith Qcanon ZArith Ascii String List Permutation
  Sorted Lia.
From stdpp Require Import gmap strings list fin_maps.

Set Warnings "-register-all".
Local Open Scope string_scope.
Local Open Scope list_scope.

(* ===================================================================== *)
(** * Python values *)
(* ===================================================================== *)

Module Py.

(** A JSON-like Python value.  [VList] and [VDict] only matter through their
    truth value and through the fact that they are neither [None], nor text,
    nor a number. *)
Inductive value : Type :=
| VNone
| VBool (b : bool)
| VNum (q : Qc)
| VStr (s : string)
| VList (l : list value)
| VDict (kv : list (string * value)).

(** A [Dict] such as [stats]. *)
Abbreviation dict := (gmap string value).

(** [d.get(k)]: [None] when the key is absent. *)
Definition get (d : dict) (k : string) : value := default VNone (d !! k).

(** [d.get(k, dflt)]. *)
Definition get_default (d : dict) (k : string) (dflt : value) : value :=
  default dflt (d !! k).

(** [v is None]. *)
Definition is_none (v : value) : bool :=
  match v with VNone => true | _ => false end.


(** [bool(v)], the truth value an [if v:] tests. *)
Definition truthy (v : value) : bool :=
  match v with
  | VNone => false
  | VBool b => b
  | VNum q => if decide (q = Q2Qc 0) then false else true
  | VStr s => if decide (s = "") then false else true
  | VList l => match l with [] => false | _ => true end
  | VDict kv => match kv with [] => false | _ => true end
  end.

(** The number a value stands for in arithmetic: a [bool] is the integer 0
    or 1; anything else than a number makes [+] raise [TypeError]. *)
Definition as_number (v : value) : option Qc :=
  match v with
  | VNum q => Some q
  | VBool b => Some (if b then Q2Qc 1 else Q2Qc 0)
  | _ => None
  end.

(** [sum(l)]: [0 + l[0] + l[1] + ...], [None] for a [TypeError]. *)
Definition sum (l : list value) : option Qc :=
  fold_left
    (fun acc v =>
       match acc, as_number v with
       | Some a, Some x => Some (a + x)%Qc
       | _, _ => None
       end)
    l (Some (Q2Qc 0)).

(** [len(l)] as a number. *)
Definition len_num {A : Type} (l : list A) : Qc :=
  Q2Qc (inject_Z (Z.of_nat (length l))).

(** An integer literal. *)
Definition int (z : Z) : value := VNum (Q2Qc (inject_Z z)).

End Py.

(* ===================================================================== *)
(** * DatabaseManager *)
(* ===================================================================== *)

Module Database.
Import Py.

(** ** The store *)

(** A row of [domain_stats].  The [TEXT NOT NULL] columns hold text; the
    nullable columns hold the Python value that was bound to them ([VNone]
    is SQL NULL); [insights_data] and [full_data] always receive a string
    built by [save_domain_stats]. *)
Record Row : Type := mkRow {
  id : nat;
  account_email : string;
  domain_name : string;
  status : value;
  verified : value;
  added_date : value;
  timestamp : string;
  date : nat;
  delivered_count : value;
  delivered_percentage : value;
  complaint_rate : value;
  complaint_percentage : value;
  complaint_trend : value;
  time_range : value;
  insights_data : string;
  full_data : string;
  screenshot_path : value;
  has_data : value;
  created_at : nat
}.

(** A row of [api_keys]. *)
Record ApiKey : Type := mkApiKey {
  key_id : nat;
  api_key : string;
  key_name : string;
  key_is_active : bool;
  key_created_at : nat
}.

(** A row of [scraping_sessions]. *)
Record ScrapingSession : Type := mkScrapingSession {
  session_id : nat;
  session_account : string;
  session_start : string;
  session_end : option string;
  domains_processed : nat;
  total_domains : nat;
  session_status : string
}.

(** A row of [scraping_accounts]. *)
Record ScrapingAccount : Type := mkScrapingAccount {
  scraping_account_id : nat;
  email : string;
  account_name : string;
  last_used : nat;
  total_sessions : nat
}.

(** The PostgreSQL database: the four tables of [init_database], and the
    last value drawn from the [SERIAL] sequence of [domain_stats]. *)
Record Store : Type := mkStore {
  domain_stats : list Row;
  domain_stats_seq : nat;
  api_keys : list ApiKey;
  scraping_sessions : list ScrapingSession;
  scraping_accounts : list ScrapingAccount
}.

(** The part of a [DatabaseManager] object that changes: [self.db_available]. *)
Record Manager : Type := mkManager {
  db_available : bool
}.

(** [DatabaseManager()]: [self.db_available = True]. *)
Definition new_manager : Manager := {| db_available := true |}.

(** What one operation reads from outside the program.
    - [connect_ok]: [psycopg2.connect] succeeds for one of the hosts tried by
      [get_connection];
    - [statement_ok]: the server runs the statements of the operation without
      a fault of its own (the constraints of the schema are modelled apart);
    - [today]: [date.today()], as a day number;
    - [now]: [CURRENT_TIMESTAMP]. *)
Record Env : Type := mkEnv {
  connect_ok : bool;
  statement_ok : bool;
  today : nat;
  now : nat
}.

(** The result of a block that may raise. *)
Inductive result (A : Type) : Type :=
| Ok (a : A)
| Raise.
Arguments Ok {A} a.
Arguments Raise {A}.

(** What [get_cursor] yields. *)
Inductive cursor : Type :=
| DummyCursor
| RealCursor.

(** [get_connection]: [None] at once when [db_available] is false; a
    connection when a host answers; otherwise [db_available] is set to false
    and [None] is returned. *)
Definition get_connection (m : Manager) (e : Env) : Manager * bool :=
  if negb (db_available m) then (m, false)
  else if connect_ok e then (m, true)
  else ({| db_available := false |}, false).

(** [get_cursor]: a [DummyCursor] when there is no connection. *)
Definition get_cursor (m : Manager) (e : Env) : Manager * cursor :=
  let '(m', conn) := get_connection m e in
  (m', if conn then RealCursor else DummyCursor).

(** ** [save_domain_stats] *)

(** The key of the [UNIQUE(account_email, domain_name, date)] constraint. *)
Definition Key : Type := string * string * nat.

Definition row_key (r : Row) : Key := (account_email r, domain_name r, date r).

(** The value bound to a [TEXT NOT NULL] column: text is stored; [None]
    violates the constraint.  A value of another Python type is taken as
    refused as well. *)
Definition sql_text (v : value) : option string :=
  match v with VStr s => Some s | _ => None end.

Section WithJson.

(** [json.dumps], of the [json] module: [None] stands for the [TypeError] or
    [ValueError] the code catches. *)
Variable json_dumps : value -> option string.

(** The [insights_json] local of [save_domain_stats]. *)
Definition insights_json (stats : dict) : string :=
  let insights := get_default stats "insights_data" (VDict []) in
  match insights with
  | VStr s => s
  | _ => default "{}" (json_dumps insights)
  end.

(** The [full_data_json] local of [save_domain_stats]. *)
Definition full_data_json (stats : dict) : string :=
  default "{}" (json_dumps (VDict (map_to_list stats))).

(** The row the [INSERT] proposes, with the identifier [i]. *)
Definition proposed_row (i : nat) (e : Env) (stats : dict) (account : string)
    (domain ts : string) : Row :=
  {| id := i;
     account_email := account;
     domain_name := domain;
     status := get stats "status";
     verified := get_default stats "verified" (VBool false);
     added_date := get stats "added_date";
     timestamp := ts;
     date := today e;
     delivered_count := get stats "delivered_count";
     delivered_percentage := get stats "delivered_percentage";
     complaint_rate := get stats "complaint_rate";
     complaint_percentage := get stats "complaint_percentage";
     complaint_trend := get stats "complaint_trend";
     time_range := get stats "time_range";
     insights_data := insights_json stats;
     full_data := full_data_json stats;
     screenshot_path := get stats "screenshot_path";
     has_data := get_default stats "has_data" (VBool true);
     created_at := now e |}.

(** [ON CONFLICT ... DO UPDATE SET ...]: the existing row keeps its [id] and
    its key and takes every other column from the proposed row. *)
Definition do_update (old new : Row) : Row :=
  {| id := id old;
     account_email := account_email old;
     domain_name := domain_name old;
     status := status new;
     verified := verified new;
     added_date := added_date new;
     timestamp := timestamp new;
     date := date old;
     delivered_count := delivered_count new;
     delivered_percentage := delivered_percentage new;
     complaint_rate := complaint_rate new;
     complaint_percentage := complaint_percentage new;
     complaint_trend := complaint_trend new;
     time_range := time_range new;
     insights_data := insights_data new;
     full_data := full_data new;
     screenshot_path := screenshot_path new;
     has_data := has_data new;
     created_at := created_at new |}.

(** Whether a row conflicts with the key [k]. *)
Definition has_key (k : Key) (r : Row) : bool := bool_decide (row_key r = k).

(** [INSERT ... ON CONFLICT (account_email, domain_name, date) DO UPDATE]:
    the conflicting row is updated in place, and when there is none the
    proposed row is appended. *)
Definition insert_on_conflict (new : Row) (rows : list Row) : list Row :=
  if existsb (has_key (row_key new)) rows
  then map (fun r => if has_key (row_key new) r then do_update r new else r) rows
  else rows ++ [new].

(** [cursor.execute] of the upsert on a real cursor.  It raises when
    [domain] or [timestamp] is not text for its [NOT NULL] column, or when
    the server faults. *)
Definition execute_upsert (e : Env) (s : Store) (stats : dict)
    (account : string) : result Store :=
  match sql_text (get stats "domain"), sql_text (get stats "timestamp") with
  | Some domain, Some ts =>
      if statement_ok e then
        let i := S (domain_stats_seq s) in
        Ok {| domain_stats :=
                insert_on_conflict (proposed_row i e stats account domain ts)
                  (domain_stats s);
              domain_stats_seq := i;
              api_keys := api_keys s;
              scraping_sessions := scraping_sessions s;
              scraping_accounts := scraping_accounts s |}
      else Raise
  | _, _ => Raise
  end.

(** [save_domain_stats(stats, account_email)].  With a [DummyCursor] the
    [execute] does nothing and the function goes on to [return True]; an
    exception on the real cursor rolls the transaction back, sets
    [db_available] to false and returns [False]. *)
Definition save_domain_stats (m : Manager) (s : Store) (e : Env)
    (stats : dict) (account : string) : Manager * Store * bool :=
  if negb (db_available m) then (m, s, false)
  else
    match get_cursor m e with
    | (m', DummyCursor) => (m', s, true)
    | (m', RealCursor) =>
        match execute_upsert e s stats account with
        | Ok s' => (m', s', true)
        | Raise => ({| db_available := false |}, s, false)
        end
    end.

(** One call of [save_domain_stats] with what it reads from outside. *)
Record SaveCall : Type := mkSaveCall {
  call_env : Env;
  call_stats : dict;
  call_account : string
}.

(** A sequence of calls, one after the other on the same manager. *)
Definition run_saves (ms : Manager * Store) (calls : list SaveCall)
    : Manager * Store :=
  fold_left
    (fun st c =>
       fst (save_domain_stats (fst st) (snd st) (call_env c) (call_stats c)
              (call_account c)))
    calls ms.



End WithJson.

(** ** [get_latest_domain_stats] and [get_all_domains_stats] *)

(** The order of [TEXT] values that [MAX] and [ORDER BY] use, taken as the
    order of the character codes. *)
Definition text_le (a b : string) : bool := String.leb a b.

Definition text_max (a b : string) : string := if text_le a b then b else a.

(** [ORDER BY timestamp DESC]: latest first.  SQL leaves the order of rows
    with equal timestamps open; here they keep the order of the table. *)
Fixpoint insert_desc (r : Row) (l : list Row) : list Row :=
  match l with
  | [] => [r]
  | x :: l' =>
      if text_le (timestamp x) (timestamp r)
      then r :: x :: l'
      else x :: insert_desc r l'
  end.

Definition order_by_timestamp_desc (l : list Row) : list Row :=
  foldr insert_desc [] l.

(** [if account_email:] holds for a string that is not empty. *)
Definition account_filter (account : option string) : option string :=
  match account with
  | Some a => if decide (a = "") then None else Some a
  | None => None
  end.

(** [WHERE account_email = %s], when the filter is given. *)
Definition eligible (account : option string) (rows : list Row) : list Row :=
  match account_filter account with
  | Some a => List.filter (fun r => bool_decide (account_email r = a)) rows
  | None => rows
  end.

(** [SELECT domain_name, MAX(timestamp) ... GROUP BY domain_name]. *)
Definition max_timestamps (rows : list Row) : gmap string string :=
  foldr
    (fun r acc =>
       <[domain_name r :=
           match acc !! domain_name r with
           | Some t => text_max (timestamp r) t
           | None => timestamp r
           end]> acc)
    ∅ rows.

(** [ds1 INNER JOIN ds2 ON ds1.domain_name = ds2.domain_name AND
    ds1.timestamp = ds2.max_timestamp]: each row of [ds1] meets at most the
    one group of its domain. *)
Definition join_max (ds1 : list Row) (ds2 : gmap string string) : list Row :=
  List.filter
    (fun r => bool_decide (ds2 !! domain_name r = Some (timestamp r))) ds1.

(** The query of [get_all_domains_stats] on a table.  With an account, the
    groups are taken over the rows of the account and the joined rows are
    filtered by [WHERE ds1.account_email = %s].  A negative [LIMIT] is an
    error of the server. *)
Definition select_latest_per_domain (rows : list Row) (limit : Z)
    (account : option string) : result (list Row) :=
  if (limit <? 0)%Z then Raise
  else
    let ds2 := max_timestamps (eligible account rows) in
    Ok (take (Z.to_nat limit)
          (order_by_timestamp_desc (eligible account (join_max rows ds2)))).

(** [get_all_domains_stats(limit, account_email)]: [[]] when the database is
    not available, with a [DummyCursor] ([fetchall] returns [[]]) and when
    the query raises. *)
Definition get_all_domains_stats (m : Manager) (s : Store) (e : Env)
    (limit : Z) (account : option string) : Manager * list Row :=
  if negb (db_available m) then (m, [])
  else
    match get_cursor m e with
    | (m', DummyCursor) => (m', [])
    | (m', RealCursor) =>
        if statement_ok e then
          match select_latest_per_domain (domain_stats s) limit account with
          | Ok rows => (m', rows)
          | Raise => (m', [])
          end
        else (m', [])
    end.

(** The query of [get_latest_domain_stats]: [WHERE domain_name = %s] (and
    the account when given) [ORDER BY timestamp DESC LIMIT 1]. *)
Definition select_latest (rows : list Row) (domain : string)
    (account : option string) : option Row :=
  head (order_by_timestamp_desc
          (List.filter (fun r => bool_decide (domain_name r = domain))
             (eligible account rows))).

(** [get_latest_domain_stats(domain, account_email)]. *)
Definition get_latest_domain_stats (m : Manager) (s : Store) (e : Env)
    (domain : string) (account : option string) : Manager * option Row :=
  if negb (db_available m) then (m, None)
  else
    match get_cursor m e with
    | (m', DummyCursor) => (m', None)
    | (m', RealCursor) =>
        if statement_ok e then (m', select_latest (domain_stats s) domain account)
        else (m', None)
    end.

(** ** [init_database] and the start of [main] *)

(** The database after the [DROP TABLE IF EXISTS] and [CREATE TABLE]
    statements and the [INSERT] of the sample key. *)
Definition fresh_store (e : Env) : Store :=
  {| domain_stats := [];
     domain_stats_seq := 0;
     api_keys := [mkApiKey 1 "test-api-key-12345" "Default API Key" true (now e)];
     scraping_sessions := [];
     scraping_accounts := [] |}.

(** One turn of the retry loop of [init_database]: [Ok] when the function
    returns from inside the [with] block, [Raise] when the block raised (the
    transaction is rolled back). *)
Definition init_attempt (m : Manager) (s : Store) (e : Env)
    : result (Manager * Store) :=
  let '(m', cur) := get_cursor m e in
  if negb (db_available m') then Ok (m', s)
  else
    match cur with
    | DummyCursor => Ok (m', s)
    | RealCursor => if statement_ok e then Ok (m', fresh_store e) else Raise
    end.

(** [init_database()]: [max_attempts = 3]; the attempt number [attempt]
    reads [envs attempt].  After the last failed attempt [db_available] is
    set to false and the exception is raised again. *)
Fixpoint init_database_from (remaining attempt : nat) (m : Manager) (s : Store)
    (envs : nat -> Env) : result unit * Manager * Store :=
  match remaining with
  | 0 => (Ok tt, m, s)
  | S remaining' =>
      match init_attempt m s (envs attempt) with
      | Ok (m', s') => (Ok tt, m', s')
      | Raise =>
          match remaining' with
          | 0 => (Raise, {| db_available := false |}, s)
          | _ => init_database_from remaining' (S attempt) m s envs
          end
      end
  end.

Definition init_database (m : Manager) (s : Store) (envs : nat -> Env)
    : result unit * Manager * Store :=
  init_database_from 3 0 m s envs.

(** The initialisation loop of [main]: [max_db_attempts = 5]; the call
    number [k] of [init_database] reads [envs k].  It starts from a new
    [DatabaseManager] and returns the manager and the database the workers
    will use. *)
Fixpoint main_init_from (remaining call : nat) (m : Manager) (s : Store)
    (envs : nat -> nat -> Env) : Manager * Store :=
  match remaining with
  | 0 => (m, s)
  | S remaining' =>
      match init_database m s (envs call) with
      | (Ok _, m', s') => (m', s')
      | (Raise, m', s') =>
          match remaining' with
          | 0 => ({| db_available := false |}, s')
          | _ => main_init_from remaining' (S call) m' s' envs
          end
      end
  end.

Definition main_init (s : Store) (envs : nat -> nat -> Env) : Manager * Store :=
  main_init_from 5 0 new_manager s envs.










(** ** Scenarios *)

(** A [json.dumps] that always fails: the two JSON columns get ["{}"]. *)
Definition no_json (v : value) : option string := None.

(** A database with four empty tables. *)
Definition empty_store : Store :=
  {| domain_stats := []; domain_stats_seq := 0; api_keys := [];
     scraping_sessions := []; scraping_accounts := [] |}.

(** The server answers, on day [day], at the instant [t]. *)
Definition env_ok (day t : nat) : Env :=
  {| connect_ok := true; statement_ok := true; today := day; now := t |}.


(** The record of an entity with data. *)
Definition stats_of (domain ts : string) (delivered : Z) : dict :=
  list_to_map
    [("domain", VStr domain); ("timestamp", VStr ts);
     ("status", VStr "Verified"); ("verified", VBool true);
     ("delivered_count", int delivered); ("has_data", VBool true)].

(** The record of an entity for which the page shows no data. *)
Definition stats_no_data (domain ts : string) : dict :=
  list_to_map
    [("domain", VStr domain); ("timestamp", VStr ts);
     ("verified", VBool true); ("has_data", VBool false)].

Definition call_on (day t : nat) (account : string) (stats : dict) : SaveCall :=
  {| call_env := env_ok day t; call_stats := stats; call_account := account |}.

(** Account A saves [x.com] twice on day 7, with 100 and then 150
    delivered; afterwards account B saves [x.com] and account A saves
    [y.com], for which there is no data. *)
Definition scenario_first : SaveCall :=
  call_on 7 1 "a@yahoo.com" (stats_of "x.com" "2024-10-07T09:00:00" 100).
Definition scenario_second : SaveCall :=
  call_on 7 2 "a@yahoo.com" (stats_of "x.com" "2024-10-07T10:00:00" 150).
Definition scenario_later : list SaveCall :=
  [call_on 7 3 "b@yahoo.com" (stats_of "x.com" "2024-10-07T10:30:00" 200);
   call_on 7 4 "a@yahoo.com" (stats_no_data "y.com" "2024-10-07T11:00:00")].

(** The database after the whole scenario. *)
Definition scenario_store : Store :=
  snd (run_saves no_json (new_manager, empty_store)
         (scenario_first :: scenario_second :: scenario_later)).


End Database.

(* ===================================================================== *)
(** * FileManager: the snapshot documents *)
(* ===================================================================== *)

Module Snapshot.
Import Py.
Import Database (result, Ok, Raise).

(** ** Documents *)

(** The value of [existing_data['accounts'][account_email]]. *)
Record AccountEntry : Type := mkAccountEntry {
  entry_last_updated : string;
  data : dict
}.

(** [domain_data['aggregated_metrics']]. *)
Record Metrics : Type := mkMetrics {
  average_delivered : Qc;
  average_complaint_rate : Qc;
  verified_accounts : nat;
  accounts_with_data : nat;
  total_accounts : nat
}.

(** The dictionary kept in [data/<domain>_stats.json].  A key that is
    missing from the dictionary is [None] here; [accounts] keeps the order in
    which its keys were first inserted, as a Python dictionary does. *)
Record Document : Type := mkDocument {
  doc_domain : option string;
  accounts : option (list (string * AccountEntry));
  last_updated : option string;
  latest_data : option dict;
  doc_total_accounts : option nat;
  aggregated_metrics : option Metrics
}.

(** The empty dictionary [{}]. *)
Definition empty_document : Document :=
  mkDocument None None None None None None.

(** [d[k] = v] on a dictionary kept as the list of its items: the value of
    an existing key is replaced where it stands, a new key goes last. *)
Fixpoint dict_set {V : Type} (k : string) (v : V) (l : list (string * V))
    : list (string * V) :=
  match l with
  | [] => [(k, v)]
  | (k', v') :: l' =>
      if decide (k' = k) then (k, v) :: l' else (k', v') :: dict_set k v l'
  end.

(** ** [calculate_aggregated_metrics] *)

(** The locals of the loop over [accounts.items()]. *)
Record Tally : Type := mkTally {
  delivered_counts : list value;
  complaint_rates : list value;
  verified_count : nat;
  has_data_count : nat
}.

Definition empty_tally : Tally := mkTally [] [] 0 0.

(** The body of the loop for one account. *)
Definition tally_account (t : Tally) (item : string * AccountEntry) : Tally :=
  let d := data (snd item) in
  let delivered := get d "delivered_count" in
  let complaint := get d "complaint_rate" in
  {| delivered_counts :=
       if is_none delivered then delivered_counts t
       else delivered_counts t ++ [delivered];
     complaint_rates :=
       if is_none complaint then complaint_rates t
       else complaint_rates t ++ [complaint];
     verified_count :=
       if truthy (get d "verified") then S (verified_count t)
       else verified_count t;
     has_data_count :=
       if truthy (get_default d "has_data" (VBool true))
       then S (has_data_count t) else has_data_count t |}.

(** [sum(l) / len(l) if l else 0]. *)
Definition average (l : list value) : result Qc :=
  match l with
  | [] => Ok (Q2Qc 0)
  | _ =>
      match sum l with
      | Some total => Ok (total / len_num l)%Qc
      | None => Raise
      end
  end.

(** [calculate_aggregated_metrics(domain_data)]: nothing is done when there
    are no accounts; a [TypeError] of [sum] leaves the function as an
    exception. *)
Definition calculate_aggregated_metrics (d : Document) : result Document :=
  match default [] (accounts d) with
  | [] => Ok d
  | items =>
      let t := fold_left tally_account items empty_tally in
      match average (delivered_counts t), average (complaint_rates t) with
      | Ok avg_delivered, Ok avg_complaint =>
          Ok {| doc_domain := doc_domain d;
                accounts := accounts d;
                last_updated := last_updated d;
                latest_data := latest_data d;
                doc_total_accounts := doc_total_accounts d;
                aggregated_metrics :=
                  Some {| average_delivered := avg_delivered;
                          average_complaint_rate := avg_complaint;
                          verified_accounts := verified_count t;
                          accounts_with_data := has_data_count t;
                          total_accounts := length items |} |}
      | _, _ => Raise
      end
  end.

(** ** [save_domain_json] *)

(** What a path of the [data] directory holds: a document written by
    [json.dump], or bytes that [json.load] rejects. *)
Inductive File : Type :=
| Json (d : Document)
| Corrupt.

(** The files of the [data] directory, by path. *)
Abbreviation Files := (gmap string File).

(** [get_json_path(domain)]. *)
Definition get_json_path (domain : string) : string :=
  ("data/" ++ domain ++ "_stats.json")%string.

(** What one call reads from the clock: the two [datetime.now().isoformat()]. *)
Record Clock : Type := mkClock {
  now_entry : string;
  now_document : string
}.

(** The first half of [save_domain_json]: [existing_data] is the content of
    the file, or [{}] when the file is absent or cannot be parsed. *)
Definition load_existing (fs : Files) (domain : string) : Document :=
  match fs !! get_json_path domain with
  | Some (Json d) => d
  | Some Corrupt => empty_document
  | None => empty_document
  end.

(** The middle of [save_domain_json]: the contribution of the account is set
    in [existing_data], the totals are refreshed and the metrics computed. *)
Definition merge_contribution (existing : Document) (domain : string)
    (stats : dict) (account : string) (clk : Clock) : result Document :=
  let accounts' :=
    dict_set account (mkAccountEntry (now_entry clk) stats)
      (default [] (accounts existing)) in
  calculate_aggregated_metrics
    {| doc_domain := Some (default domain (doc_domain existing));
       accounts := Some accounts';
       last_updated := Some (now_document clk);
       latest_data := Some stats;
       doc_total_accounts := Some (length accounts');
       aggregated_metrics := aggregated_metrics existing |}.

(** The last part of [save_domain_json]: the whole document is written back
    and the path returned; after an exception nothing is written and [""]
    is returned. *)
Definition write_back (fs : Files) (domain : string) (merged : result Document)
    : Files * string :=
  match merged with
  | Ok d => (<[get_json_path domain := Json d]> fs, get_json_path domain)
  | Raise => (fs, "")
  end.

(** [save_domain_json(domain, stats, account_email)]. *)
Definition save_domain_json (fs : Files) (domain : string) (stats : dict)
    (account : string) (clk : Clock) : Files * string :=
  write_back fs domain
    (merge_contribution (load_existing fs domain) domain stats account clk).

(** One contribution: the arguments of a call for a fixed entity. *)
Record Contribution : Type := mkContribution {
  from_account : string;
  record : dict;
  clock : Clock
}.

(** The contributions merged one after the other. *)
Definition merge_all (fs : Files) (domain : string) (l : list Contribution)
    : Files :=
  fold_left
    (fun fs c =>
       fst (save_domain_json fs domain (record c) (from_account c) (clock c)))
    l fs.



(** ** Two workers merging into the same entity *)

(** [save_domain_json] takes no lock: between the moment a worker thread has
    loaded [existing_data] and the moment it writes the document back,
    another thread may run.  A merge is therefore two steps on the shared
    directory: the load, and the write of the document computed from what
    was loaded. *)
Inductive Progress : Type :=
| NotStarted
| Loaded (existing : Document)
| Finished.

Record Merger : Type := mkMerger {
  job : Contribution;
  progress : Progress
}.

(** One step of a worker inside [save_domain_json]. *)
Definition step_merger (fs : Files) (domain : string) (w : Merger)
    : Files * Merger :=
  match progress w with
  | NotStarted => (fs, mkMerger (job w) (Loaded (load_existing fs domain)))
  | Loaded existing =>
      (fst (write_back fs domain
              (merge_contribution existing domain (record (job w))
                 (from_account (job w)) (clock (job w)))),
       mkMerger (job w) Finished)
  | Finished => (fs, w)
  end.

(** Which of the two workers runs next. *)
Inductive Turn : Type :=
| First
| Second.

(** The two workers under a schedule. *)
Fixpoint run_schedule (fs : Files) (domain : string) (w1 w2 : Merger)
    (sched : list Turn) : Files * Merger * Merger :=
  match sched with
  | [] => (fs, w1, w2)
  | First :: sched' =>
      let '(fs', w1') := step_merger fs domain w1 in
      run_schedule fs' domain w1' w2 sched'
  | Second :: sched' =>
      let '(fs', w2') := step_merger fs domain w2 in
      run_schedule fs' domain w1 w2' sched'
  end.

(** The directory after the two merges ran under a schedule. *)
Definition merge_concurrently (fs : Files) (domain : string)
    (c1 c2 : Contribution) (sched : list Turn) : Files :=
  fst (fst (run_schedule fs domain (mkMerger c1 NotStarted)
              (mkMerger c2 NotStarted) sched)).






(** ** What the specification says of the metrics *)


(** The records of a document, in the order of its accounts. *)
Definition records (items : list (string * AccountEntry)) : list dict :=
  map (fun item => data (snd item)) items.


(** The record is verified: [verified] is true. *)
Definition is_verified (stats : dict) : bool := truthy (get stats "verified").

(** The record has data: [has_data] is true, or left out, which
    [save_domain_stats] and the loop both read as true. *)
Definition with_data (stats : dict) : bool :=
  truthy (get_default stats "has_data" (VBool true)).










(** The values of the metric [key] that the loop collects: those that are
    not [None]. *)
Definition collected (key : string) (l : list dict) : list value :=
  List.filter (fun v => negb (is_none v)) (map (fun d => get d key) l).

(** ** Scenarios *)

(** Accounts A and B contribute to [x.com] with 100 and 200 delivered, and
    account C with a record that has no delivered count and no data. *)
Definition contribution_a : Contribution :=
  mkContribution "a@yahoo.com"
    (Database.stats_of "x.com" "2024-10-07T09:00:00" 100)
    (mkClock "2024-10-07T09:00:01" "2024-10-07T09:00:02").
Definition contribution_b : Contribution :=
  mkContribution "b@yahoo.com"
    (Database.stats_of "x.com" "2024-10-07T09:30:00" 200)
    (mkClock "2024-10-07T09:30:01" "2024-10-07T09:30:02").



End Snapshot.

(* ===================================================================== *)
(** * PersistentAccountScraper: the worker *)
(* ===================================================================== *)

Module Worker.

(** How a call of [run_hourly_scrape_enhanced] ends: it returns a true
    value, it returns a false value, or it raises.  In this file the body of
    the method is a placeholder that returns [None]; the outcome is an input
    of the model so that the three branches of the loop are covered. *)
Inductive Outcome : Type :=
| Succeeded
| Failed
| Raised.

(** What the worker reads from outside.  Time is counted in seconds from the
    start of the worker.
    - [stop_at]: the instant at which [stop_scraping] sets [is_running] to
      false, if it is ever called;
    - [setup]: whether [setup_persistent_driver] succeeds, and how long it
      takes;
    - [login]: the result and the duration of the initial
      [guaranteed_login] number [n];
    - [cycle]: the outcome and the duration of the call number [n] of
      [run_hourly_scrape_enhanced]. *)
Record Env : Type := mkEnv {
  stop_at : option nat;
  setup : bool * nat;
  login : nat -> bool * nat;
  cycle : nat -> Outcome * nat
}.

(** [self.is_running] as read at the instant [t]. *)
Definition is_running (e : Env) (t : nat) : bool :=
  match stop_at e with
  | Some stop => (t <? stop)%nat
  | None => true
  end.

Definition max_consecutive_failures : nat := 5.

(** The short interval of the hourly sleep: [time.sleep(300)]. *)
Definition tick : nat := 300.

Definition wait_seconds : nat := 3600.

(** [for i in range(n): if not self.is_running: break; time.sleep(300)]:
    the instant at which the loop is left. *)
Fixpoint sleep_in_ticks (e : Env) (n : nat) (t : nat) : nat :=
  match n with
  | 0 => t
  | S n' => if is_running e t then sleep_in_ticks e n' (t + tick) else t
  end.

(** [retry_delay = min(300 * consecutive_failures, 1800)]. *)
Definition retry_delay (consecutive_failures : nat) : nat :=
  Nat.min (300 * consecutive_failures) 1800.

(** The locals of the loop of [start_persistent_scraping], with the clock
    and the number of calls of [run_hourly_scrape_enhanced] made so far. *)
Record LoopState : Type := mkLoopState {
  clock : nat;
  cycle_count : nat;
  consecutive_failures : nat;
  calls : nat
}.

(** The body of the [while] loop; the boolean tells whether the body left
    the loop by [break]. *)
Definition iteration (e : Env) (st : LoopState) : LoopState * bool :=
  let '(outcome, duration) := cycle e (calls st) in
  let t := clock st + duration in
  match outcome with
  | Succeeded =>
      ({| clock := sleep_in_ticks e (wait_seconds / tick) t;
          cycle_count := S (cycle_count st);
          consecutive_failures := 0;
          calls := S (calls st) |}, false)
  | Failed =>
      let failures := S (consecutive_failures st) in
      ({| clock := t + retry_delay failures;
          cycle_count := S (cycle_count st);
          consecutive_failures := failures;
          calls := S (calls st) |}, false)
  | Raised =>
      let failures := S (consecutive_failures st) in
      if (max_consecutive_failures <=? failures)%nat
      then ({| clock := t;
               cycle_count := cycle_count st;
               consecutive_failures := failures;
               calls := S (calls st) |}, true)
      else ({| clock := t + retry_delay failures;
               cycle_count := cycle_count st;
               consecutive_failures := failures;
               calls := S (calls st) |}, false)
  end.

(** [while self.is_running and consecutive_failures <
    max_consecutive_failures], for at most [fuel] turns: the state in which
    the loop is left, or [None] when it is still running after [fuel]
    turns. *)
Fixpoint cycle_loop (fuel : nat) (e : Env) (st : LoopState) : option LoopState :=
  match fuel with
  | 0 => None
  | S fuel' =>
      if is_running e (clock st)
         && (consecutive_failures st <? max_consecutive_failures)%nat
      then
        let '(st', left_by_break) := iteration e st in
        if left_by_break then Some st' else cycle_loop fuel' e st'
      else Some st
  end.

(** The initial login of [start_persistent_scraping]:
    [max_initial_login_attempts = 3], thirty seconds between two attempts.
    The result is the instant reached and whether a login succeeded. *)
Fixpoint initial_login (remaining attempt : nat) (e : Env) (t : nat)
    : nat * bool :=
  match remaining with
  | 0 => (t, true)
  | S remaining' =>
      let '(ok, duration) := login e attempt in
      if ok then (t + duration, true)
      else
        match remaining' with
        | 0 => (t + duration, false)
        | _ => initial_login remaining' (S attempt) e (t + duration + 30)
        end
  end.

(** How [start_persistent_scraping] returns. *)
Inductive Exit : Type :=
| SetupFailed (t : nat)
| LoginFailed (t : nat)
| LoopLeft (st : LoopState).

(** [start_persistent_scraping()]. *)
Definition start_persistent_scraping (fuel : nat) (e : Env) : option Exit :=
  let '(setup_ok, setup_time) := setup e in
  if negb setup_ok then Some (SetupFailed setup_time)
  else
    let '(t, logged_in) := initial_login 3 0 e setup_time in
    if negb logged_in then Some (LoginFailed t)
    else LoopLeft <$> cycle_loop fuel e (mkLoopState t 0 0 0).

(** The instant at which the worker thread ends. *)
Definition end_time (x : Exit) : nat :=
  match x with
  | SetupFailed t => t
  | LoginFailed t => t
  | LoopLeft st => clock st
  end.

(** ** Scenarios *)

(** Setup and login succeed at once; the cycles listed in [outcomes] take
    ten seconds each, and every later cycle succeeds. *)
Definition env_of (stop : option nat) (outcomes : list Outcome) : Env :=
  {| stop_at := stop;
     setup := (true, 0);
     login := fun _ => (true, 0);
     cycle := fun n => (nth n outcomes Succeeded, 10) |}.

End Worker.

(* ===================================================================== *)
(** * SimultaneousPersistentManager: the supervisor *)
(* ===================================================================== *)

Module Supervisor.

Local Open Scope nat_scope.

(** A [PersistentAccountScraper] as the manager sees it: its account and
    its [is_running] flag. *)
Record Scraper : Type := mkScraper {
  account : string;
  scraper_running : bool
}.

(** The manager.  A thread is named by a number; [next_thread] is the name
    the next [threading.Thread] gets; [clock] counts the seconds the main
    thread has spent in [time.sleep] and [join]. *)
Record Manager : Type := mkManager {
  is_running : bool;
  scrapers : list Scraper;
  threads : list nat;
  next_thread : nat;
  clock : nat
}.

(** What the manager reads from outside: the enabled accounts of the
    [AccountManager], and [thread.is_alive()] for every thread at every
    instant. *)
Record Env : Type := mkEnv {
  accounts : list string;
  alive : nat -> nat -> bool
}.

(** [SimultaneousPersistentManager()]. *)
Definition new_manager : Manager :=
  {| is_running := true; scrapers := []; threads := []; next_thread := 0;
     clock := 0 |}.

(** [time.sleep(d)] in the main thread. *)
Definition sleep (d : nat) (m : Manager) : Manager :=
  {| is_running := is_running m; scrapers := scrapers m; threads := threads m;
     next_thread := next_thread m; clock := clock m + d |}.

(** [thread.join(timeout)]: the instant at which the thread is seen dead, at
    most [timeout] seconds later. *)
Fixpoint join (e : Env) (thread : nat) (timeout : nat) (t : nat) : nat :=
  match timeout with
  | 0 => t
  | S timeout' => if alive e thread t then join e thread timeout' (S t) else t
  end.

(** [stop_all_accounts()]: the flag of the manager and of every scraper is
    cleared, and every thread is joined for sixty seconds at most. *)
Definition stop_all_accounts (e : Env) (m : Manager) : Manager :=
  {| is_running := false;
     scrapers := map (fun s => mkScraper (account s) false) (scrapers m);
     threads := threads m;
     next_thread := next_thread m;
     clock := fold_left (fun t thread => join e thread 60 t) (threads m) (clock m) |}.

(** The second loop of [start_all_accounts_simultaneously]: a thread is
    started for every scraper from position [i] on, with [60 * (i + 1)]
    seconds before the next one. *)
Fixpoint start_threads (i total : nat) (pending : list Scraper) (m : Manager)
    : Manager :=
  match pending with
  | [] => m
  | _ :: pending' =>
      let started :=
        {| is_running := is_running m; scrapers := scrapers m;
           threads := threads m ++ [next_thread m];
           next_thread := S (next_thread m);
           clock := if i <? total - 1 then clock m + 60 * (i + 1) else clock m |} in
      start_threads (S i) total pending' started
  end.

(** [start_all_accounts_simultaneously()], with [keep] for the call of
    [keep_main_thread_alive] that ends it. *)
Definition start_all_accounts_with (keep : Manager -> option Manager)
    (e : Env) (m : Manager) : option Manager :=
  match accounts e with
  | [] => Some m
  | _ =>
      let created :=
        {| is_running := is_running m;
           scrapers := scrapers m ++ map (fun a => mkScraper a true) (accounts e);
           threads := threads m; next_thread := next_thread m;
           clock := clock m |} in
      keep (start_threads 0 (length (scrapers created)) (scrapers created) created)
  end.

(** [restart_all_scrapers()]. *)
Definition restart_all_scrapers_with (keep : Manager -> option Manager)
    (e : Env) (m : Manager) : option Manager :=
  let stopped := sleep 30 (stop_all_accounts e m) in
  start_all_accounts_with keep e
    {| is_running := is_running stopped; scrapers := []; threads := [];
       next_thread := next_thread stopped; clock := clock stopped |}.

(** The number of threads that are alive. *)
Definition alive_threads (e : Env) (m : Manager) : nat :=
  length (List.filter (fun thread => alive e thread (clock m)) (threads m)).

(** The status block of the monitoring loop, entered when [monitor_count]
    is a multiple of 15: the fleet is restarted when no thread is alive. *)
Definition check_fleet (keep : Manager -> option Manager) (e : Env)
    (monitor_count : nat) (m : Manager) : option Manager :=
  if monitor_count mod 15 =? 0 then
    if (alive_threads e m =? 0) && (0 <? length (threads m))
    then restart_all_scrapers_with keep e m
    else Some m
  else Some m.

(** The [for] loop over [zip(self.threads, self.scrapers)], from position
    [i]: a thread seen dead is looked at again after five minutes, and when
    it is still dead a new thread of the same scraper takes its place. *)
Fixpoint restart_dead_threads (e : Env) (i : nat) (pending : list (nat * Scraper))
    (m : Manager) : Manager :=
  match pending with
  | [] => m
  | (thread, _) :: pending' =>
      let m' :=
        if alive e thread (clock m) then m
        else
          let cooled := sleep 300 m in
          if alive e thread (clock cooled) then cooled
          else
            sleep 60
              {| is_running := is_running cooled; scrapers := scrapers cooled;
                 threads := <[i := next_thread cooled]> (threads cooled);
                 next_thread := S (next_thread cooled);
                 clock := clock cooled |} in
      restart_dead_threads e (S i) pending' m'
  end.

(** [keep_main_thread_alive()], for at most [fuel] polls, from a given
    [monitor_count]: the manager when the function returns, [None] when it
    is still monitoring after [fuel] polls. *)
Fixpoint keep_main_thread_alive_from (fuel : nat) (e : Env)
    (monitor_count : nat) (m : Manager) : option Manager :=
  match fuel with
  | 0 => None
  | S fuel' =>
      if negb (is_running m) then Some m
      else
        match check_fleet (keep_main_thread_alive_from fuel' e 0) e
                (S monitor_count) (sleep 120 m) with
        | None => None
        | Some checked =>
            keep_main_thread_alive_from fuel' e (S monitor_count)
              (restart_dead_threads e 0
                 (zip (threads checked) (scrapers checked)) checked)
        end
  end.

Definition keep_main_thread_alive (fuel : nat) (e : Env) (m : Manager)
    : option Manager :=
  keep_main_thread_alive_from fuel e 0 m.

Definition restart_all_scrapers (fuel : nat) (e : Env) (m : Manager)
    : option Manager :=
  restart_all_scrapers_with (keep_main_thread_alive fuel e) e m.

Definition start_all_accounts_simultaneously (fuel : nat) (e : Env)
    (m : Manager) : option Manager :=
  start_all_accounts_with (keep_main_thread_alive fuel e) e m.

(** ** Scenarios *)

Definition three_accounts : list string :=
  ["a@yahoo.com"; "b@yahoo.com"; "c@yahoo.com"].

(** The three workers started first (threads 0, 1 and 2) die at the
    instant [death]; every thread started later stays alive. *)
Definition env_fleet_dies (death : nat) : Env :=
  {| accounts := three_accounts;
     alive := fun thread t => if thread <? 3 then t <? death else true |}.

(** The manager once the three workers are started, at the instant [t]. *)
Definition fleet_started (t : nat) : Manager :=
  {| is_running := true;
     scrapers := map (fun a => mkScraper a true) three_accounts;
     threads := [0; 1; 2];
     next_thread := 3;
     clock := t |}.

End Supervisor.

(* ===================================================================== *)
(** * DatabaseManager: the audit tables *)
(* ===================================================================== *)

Module Sessions.
Import Py Database.

(** What [start_scraping_session] and [update_scraping_session] read from
    outside, beside the [Env] of every operation: the text of
    [datetime.now().isoformat()], and the values the server draws from the
    [SERIAL] sequences of [scraping_accounts] and [scraping_sessions] for
    the rows the call proposes. *)
Record SessionEnv : Type := mkSessionEnv {
  base : Env;
  iso_now : string;
  account_serial : nat;
  session_serial : nat
}.

Definition is_account (account : string) (r : ScrapingAccount) : bool :=
  bool_decide (email r = account).

(** [INSERT INTO scraping_accounts ... ON CONFLICT (email) DO UPDATE SET
    last_used = EXCLUDED.last_used, total_sessions =
    scraping_accounts.total_sessions + 1]. *)
Definition upsert_account (account : string) (e : SessionEnv)
    (rows : list ScrapingAccount) : list ScrapingAccount :=
  if existsb (is_account account) rows
  then
    map (fun r =>
           if is_account account r
           then mkScrapingAccount (scraping_account_id r) (email r)
                  (account_name r) (now (base e)) (S (total_sessions r))
           else r) rows
  else
    rows ++ [mkScrapingAccount (account_serial e) account
               ("Account " ++ account)%string (now (base e)) 1].

(** [INSERT INTO scraping_sessions (account_email, session_start,
    total_domains, status) VALUES (..., 'running') RETURNING id]. *)
Definition insert_session (account : string) (total : nat) (e : SessionEnv)
    (rows : list ScrapingSession) : list ScrapingSession :=
  rows ++ [mkScrapingSession (session_serial e) account (iso_now e) None 0
             total "running"].

(** [start_scraping_session(total_domains, account_email)]: the identifier
    of the new session, or [1] when the database is not available, with a
    [DummyCursor] ([fetchone] returns [None]) and after an exception, which
    is caught without a change of [db_available]. *)
Definition start_scraping_session (m : Manager) (s : Store) (e : SessionEnv)
    (total : nat) (account : string) : Manager * Store * nat :=
  if negb (db_available m) then (m, s, 1)
  else
    match get_cursor m (base e) with
    | (m', DummyCursor) => (m', s, 1)
    | (m', RealCursor) =>
        if statement_ok (base e) then
          (m',
           {| domain_stats := domain_stats s;
              domain_stats_seq := domain_stats_seq s;
              api_keys := api_keys s;
              scraping_sessions :=
                insert_session account total e (scraping_sessions s);
              scraping_accounts :=
                upsert_account account e (scraping_accounts s) |},
           session_serial e)
        else (m', s, 1)
    end.

(** The [UPDATE scraping_sessions SET ... WHERE id = %s] of
    [update_scraping_session]: [session_end] is part of the [SET] only for
    the status ['completed']. *)
Definition update_session (i processed : nat) (status : string) (iso : string)
    (rows : list ScrapingSession) : list ScrapingSession :=
  map (fun r =>
         if bool_decide (session_id r = i)
         then mkScrapingSession (session_id r) (session_account r)
                (session_start r)
                (if decide (status = "completed") then Some iso
                 else session_end r)
                processed (total_domains r) status
         else r) rows.

(** [update_scraping_session(session_id, domains_processed, status)]. *)
Definition update_scraping_session (m : Manager) (s : Store) (e : SessionEnv)
    (i processed : nat) (status : string) : Manager * Store :=
  if negb (db_available m) then (m, s)
  else
    match get_cursor m (base e) with
    | (m', DummyCursor) => (m', s)
    | (m', RealCursor) =>
        if statement_ok (base e) then
          (m',
           {| domain_stats := domain_stats s;
              domain_stats_seq := domain_stats_seq s;
              api_keys := api_keys s;
              scraping_sessions :=
                update_session i processed status (iso_now e)
                  (scraping_sessions s);
              scraping_accounts := scraping_accounts s |})
        else (m', s)
    end.

(** One call of [start_scraping_session]. *)
Record StartCall : Type := mkStartCall {
  start_env : SessionEnv;
  start_total : nat;
  start_account : string
}.

(** A sequence of calls on one manager. *)
Definition run_starts (ms : Manager * Store) (calls : list StartCall)
    : Manager * Store :=
  fold_left
    (fun st c =>
       fst (start_scraping_session (fst st) (snd st) (start_env c)
              (start_total c) (start_account c)))
    calls ms.

(** The server answers the call. *)
Definition answered (c : StartCall) : bool :=
  connect_ok (base (start_env c)) && statement_ok (base (start_env c)).

(** The rows of an account in [scraping_accounts]. *)
Definition account_rows (account : string) (s : Store) : list ScrapingAccount :=
  List.filter (is_account account) (scraping_accounts s).

(** The session with the identifier [i]. *)
Definition sessions_with_id (i : nat) (s : Store) : list ScrapingSession :=
  List.filter (fun r => bool_decide (session_id r = i)) (scraping_sessions s).

(** The sessions of an account in [scraping_sessions]. *)
Definition sessions_of (account : string) (s : Store) : list ScrapingSession :=
  List.filter (fun r => bool_decide (session_account r = account))
    (scraping_sessions s).

(** The sessions counted for an account in [scraping_accounts]. *)
Definition counted_sessions (account : string) (s : Store) : nat :=
  list_sum (map total_sessions (account_rows account s)).

(** The two audit tables agree: [email] is unique in [scraping_accounts],
    and the [total_sessions] of every account is the number of its rows in
    [scraping_sessions]. *)
Definition audit_consistent (s : Store) : Prop :=
  NoDup (map email (scraping_accounts s))
  /\ forall account,
       counted_sessions account s = length (sessions_of account s).

(** The server answers: a session environment at the instant [t]. *)
Definition session_env (t : nat) (iso : string) (account_id session : nat)
    : SessionEnv :=
  mkSessionEnv (env_ok 7 t) iso account_id session.

(** The statement faults although the server is reached. *)
Definition session_env_fault (t : nat) (iso : string) : SessionEnv :=
  mkSessionEnv {| connect_ok := true; statement_ok := false; today := 7; now := t |}
    iso 0 0.

End Sessions.

(* ===================================================================== *)
(** * What the queries promise *)
(* ===================================================================== *)

Module Queries.
Import Py Database.

(** The rows are in the order of [ORDER BY timestamp DESC]: every row comes
    before the rows whose timestamp is not later than its own. *)
Definition latest_first (l : list Row) : Prop :=
  StronglySorted
    (fun a b => text_le (timestamp b) (timestamp a) = true) l.

(** The rows of [rows] that [get_latest_domain_stats] looks at. *)
Definition matching (rows : list Row) (domain : string)
    (account : option string) : list Row :=
  List.filter (fun r => bool_decide (domain_name r = domain))
    (eligible account rows).


End Queries.

(* ===================================================================== *)
(** * What a merge promises *)
(* ===================================================================== *)

Module SnapshotSpec.
Import Py Snapshot.

(** The metric [key] of a record is present and is not a number: [sum]
    raises on it. *)
Definition not_a_number (key : string) (stats : dict) : Prop :=
  is_none (get stats key) = false /\ as_number (get stats key) = None.


(** A record with a text in place of the delivered count. *)
Definition stats_bad_count : dict :=
  list_to_map
    [("domain", VStr "x.com"); ("timestamp", VStr "2024-10-07T12:00:00");
     ("delivered_count", VStr "n/a")].

End SnapshotSpec.

(* ===================================================================== *)
(** * AccountManager *)
(* ===================================================================== *)

Module Accounts.
Import Py.

(** What [load_accounts] finds at [self.accounts_file]: no file, a file
    that [open] or [json.load] rejects, or the value [json.load] returns. *)
Inductive AccountsFile : Type :=
| Missing
| Unreadable
| Parsed (data : value).

(** What [load_accounts] reads from outside: the file, and the environment
    variables [YAHOO_EMAIL] and [YAHOO_PASSWORD] ([None] when unset). *)
Record Env : Type := mkEnv {
  accounts_file : AccountsFile;
  YAHOO_EMAIL : option string;
  YAHOO_PASSWORD : option string
}.

(** The value under the key [k] of a dictionary given by its items. *)
Definition lookup (k : string) (kv : list (string * value)) : option value :=
  snd <$> List.find (fun p => String.eqb (fst p) k) kv.

(** [k in v] for a string [k]: a key of a dictionary, an element of a
    list, a part of a string; [None] for the [TypeError] of the other
    values. *)
Definition contains (k : string) (v : value) : option bool :=
  match v with
  | VDict kv => Some (bool_decide (is_Some (lookup k kv)))
  | VList l =>
      Some (existsb (fun x => match x with
                              | VStr s => String.eqb s k
                              | _ => false
                              end) l)
  | VStr s => Some (bool_decide (is_Some (index 0 k s)))
  | _ => None
  end.

(** [v.get(k, dflt)]: [None] for the [AttributeError] of a [v] that is not
    a dictionary. *)
Definition dict_get (v : value) (k : string) (dflt : value) : option value :=
  match v with
  | VDict kv => Some (default dflt (lookup k kv))
  | _ => None
  end.

(** [v.items()]. *)
Definition items (v : value) : option (list (string * value)) :=
  match v with
  | VDict kv => Some kv
  | _ => None
  end.

(** [isinstance(v, list)]. *)
Definition is_list (v : value) : bool :=
  match v with VList _ => true | _ => false end.

(** [isinstance(item, dict) and 'email' in item]. *)
Definition has_email (item : value) : bool :=
  match item with
  | VDict kv => bool_decide (is_Some (lookup "email" kv))
  | _ => false
  end.

(** [isinstance(value, list) and len(value) > 0] and every item of it has
    an email. *)
Definition list_of_accounts (v : value) : bool :=
  match v with
  | VList (item :: l) => forallb has_email (item :: l)
  | _ => false
  end.

(** The [for key, value in data.items()] loop: the first value that is a
    list of accounts, [[]] when there is none. *)
Definition first_list_of_accounts (kv : list (string * value)) : value :=
  match List.find (fun p => list_of_accounts (snd p)) kv with
  | Some p => snd p
  | None => VList []
  end.

(** The body of the [try], from [data = json.load(f)] on: the value of
    [accounts], [None] when a statement raises before [accounts] is
    assigned.  (The [print] that follows can raise as well, on
    [len(accounts)]; it leaves [accounts] as it is.) *)
Definition read_data (data : value) : option value :=
  in_yahoo ← contains "yahoo_accounts" data;
  if in_yahoo : bool then dict_get data "yahoo_accounts" (VList [])
  else if is_list data then Some data
  else
    in_accounts ← contains "accounts" data;
    if in_accounts : bool then dict_get data "accounts" (VList [])
    else kv ← items data; Some (first_list_of_accounts kv).

(** [accounts] after the [if os.path.exists(...)] block: every exception
    of the [try] is caught, and leaves the initial [[]]. *)
Definition accounts_from_file (f : AccountsFile) : value :=
  match f with
  | Parsed data => default (VList []) (read_data data)
  | Missing | Unreadable => VList []
  end.

(** The account built from the environment. *)
Definition env_account (email password : string) : value :=
  VDict [("email", VStr email); ("password", VStr password);
         ("name", VStr "Environment Account"); ("enabled", VBool true)].

(** [if env_email and env_password]: the accounts of the environment. *)
Definition environment_accounts (e : Env) : list value :=
  match YAHOO_EMAIL e, YAHOO_PASSWORD e with
  | Some email, Some password =>
      if truthy (VStr email) && truthy (VStr password)
      then [env_account email password]
      else []
  | _, _ => []
  end.

(** The [if not accounts:] block. *)
Definition with_fallback (e : Env) (accounts : value) : value :=
  if truthy accounts then accounts
  else
    match environment_accounts e with
    | [] => accounts
    | l => VList l
    end.

(** [for acc in v]: the values the loop visits, [None] for the [TypeError]
    of a value that cannot be iterated.  A dictionary gives its keys, a
    string its characters. *)
Definition iterate (v : value) : option (list value) :=
  match v with
  | VList l => Some l
  | VDict kv => Some (map (fun p => VStr (fst p)) kv)
  | VStr s => Some (map (fun c => VStr (String c "")) (list_ascii_of_string s))
  | _ => None
  end.

(** [acc.get('enabled', True)] as a condition. *)
Definition enabled (acc : value) : option bool :=
  truthy <$> dict_get acc "enabled" (VBool true).

(** The loop that fills [enabled_accounts]; [None] when it raises. *)
Fixpoint filter_enabled (l : list value) : option (list value) :=
  match l with
  | [] => Some []
  | acc :: l' =>
      keep ← enabled acc;
      rest ← filter_enabled l';
      Some (if keep : bool then acc :: rest else rest)
  end.

(** [load_accounts()]: the enabled accounts, [None] when the method
    raises. *)
Definition load_accounts (e : Env) : option (list value) :=
  accounts ← iterate (with_fallback e (accounts_from_file (accounts_file e)));
  filter_enabled accounts.

(** [validate_accounts()] on the accounts [load_accounts] returned. *)
Definition validate_accounts (accounts : list value) : bool :=
  match accounts with [] => false | _ => true end.

(** A file from which [load_accounts] takes no account: it is missing or
    unreadable, or its top-level value is a scalar, a string, or a list
    with the string [yahoo_accounts] among its elements. *)
Definition yields_nothing (f : AccountsFile) : Prop :=
  match f with
  | Missing | Unreadable => True
  | Parsed (VDict _) => False
  | Parsed (VList l) => In (VStr "yahoo_accounts") l
  | Parsed _ => True
  end.

(** An account that [load_accounts] keeps, or drops. *)
Definition is_enabled (keep : bool) (acc : value) : Prop :=
  exists kv, acc = VDict kv
             /\ truthy (default (VBool true) (lookup "enabled" kv)) = keep.

(** ** Scenarios *)

Definition account (email : string) (on : bool) : value :=
  VDict [("email", VStr email); ("password", VStr "secret");
         ("enabled", VBool on)].

Definition env_set (f : AccountsFile) : Env :=
  {| accounts_file := f;
     YAHOO_EMAIL := Some "env@yahoo.com";
     YAHOO_PASSWORD := Some "secret" |}.

Definition env_unset (f : AccountsFile) : Env :=
  {| accounts_file := f; YAHOO_EMAIL := None; YAHOO_PASSWORD := None |}.

End Accounts.

(* ===================================================================== *)
(** * Properties of DatabaseManager *)
(* ===================================================================== *)

Module DatabaseFacts.
Import Py Database.

(** ** The order of text *)

Lemma ascii_compare_refl a : Ascii.compare a a = Eq.
Proof. unfold Ascii.compare. apply N.compare_refl. Qed.

Lemma string_compare_refl s : String.compare s s = Eq.
Proof.
  induction s as [|a s IH]; [done |]. cbn. by rewrite ascii_compare_refl.
Qed.

Lemma text_le_refl a : text_le a a = true.
Proof. unfold text_le, String.leb. by rewrite string_compare_refl. Qed.

Lemma string_compare_trans_le s1 s2 s3 :
  String.compare s1 s2 <> Gt -> String.compare s2 s3 <> Gt ->
  String.compare s1 s3 <> Gt.
Proof.
  revert s2 s3. induction s1 as [|a1 s1 IH]; intros [|a2 s2] [|a3 s3]; cbn;
    try done.
  unfold Ascii.compare.
  destruct (N.compare_spec (N_of_ascii a1) (N_of_ascii a2)) as [E12|L12|G12];
    destruct (N.compare_spec (N_of_ascii a2) (N_of_ascii a3)) as [E23|L23|G23];
    try done.
  - rewrite E12, E23, N.compare_refl. apply IH.
  - intros _ _. rewrite E12.
    by assert ((N_of_ascii a2 ?= N_of_ascii a3)%N = Lt) as ->
      by by apply N.compare_lt_iff.
  - intros _ _. rewrite <- E23.
    by assert ((N_of_ascii a1 ?= N_of_ascii a2)%N = Lt) as ->
      by by apply N.compare_lt_iff.
  - intros _ _.
    by assert ((N_of_ascii a1 ?= N_of_ascii a3)%N = Lt) as ->
      by (apply N.compare_lt_iff; lia).
Qed.

Lemma text_le_trans a b c :
  text_le a b = true -> text_le b c = true -> text_le a c = true.
Proof.
  unfold text_le, String.leb. intros Hab Hbc.
  pose proof (string_compare_trans_le a b c) as H.
  destruct (String.compare a b), (String.compare b c), (String.compare a c);
    try done; exfalso; apply H; done.
Qed.

Lemma text_le_total a b : text_le a b = true \/ text_le b a = true.
Proof. apply String.leb_total. Qed.





Section Upsert.
Variable json_dumps : value -> option string.






















End Upsert.


(** ** The latest row of every entity *)

Section Latest.






Lemma filter_comm {A} (f g : A -> bool) (l : list A) :
  List.filter f (List.filter g l) = List.filter g (List.filter f l).
Proof.
  induction l as [|x l IH]; [done |]. cbn.
  destruct (f x) eqn:Hf, (g x) eqn:Hg; cbn; rewrite ?Hf, ?Hg, ?IH; done.
Qed.

Lemma eligible_join_max account rows ds2 :
  eligible account (join_max rows ds2) = join_max (eligible account rows) ds2.
Proof.
  unfold eligible, join_max. destruct (account_filter account); [| done].
  apply filter_comm.
Qed.

Lemma eligible_sub account rows r : In r (eligible account rows) -> In r rows.
Proof.
  unfold eligible. destruct (account_filter account); [| done].
  rewrite filter_In. tauto.
Qed.

Lemma insert_desc_perm r l : insert_desc r l ≡ₚ r :: l.
Proof.
  induction l as [|x l IH]; [done |]. cbn.
  destruct (text_le (timestamp x) (timestamp r)); [done |].
  rewrite IH. apply Permutation_swap.
Qed.

Lemma order_by_timestamp_desc_perm l : order_by_timestamp_desc l ≡ₚ l.
Proof.
  induction l as [|x l IH]; [done |]. cbn.
  rewrite insert_desc_perm. by rewrite IH.
Qed.





Lemma get_all_domains_stats_eq m s e limit account :
  snd (get_all_domains_stats m s e limit account)
  = if db_available m && connect_ok e && statement_ok e && negb (limit <? 0)%Z
    then take (Z.to_nat limit)
           (order_by_timestamp_desc
              (join_max (eligible account (domain_stats s))
                 (max_timestamps (eligible account (domain_stats s)))))
    else [].
Proof.
  unfold get_all_domains_stats, get_cursor, get_connection.
  destruct (db_available m); cbn; [| done].
  destruct (connect_ok e); cbn; [| done].
  destruct (statement_ok e); cbn; [| done].
  unfold select_latest_per_domain.
  destruct (limit <? 0)%Z; cbn; [done |].
  by rewrite eligible_join_max.
Qed.

Lemma In_take {A} (n : nat) (l : list A) x : In x (take n l) -> In x l.
Proof.
  rewrite <- !list_elem_of_In. apply subseteq_take.
Qed.


End Latest.




(** ** An unreachable database *)

(** C9 (the code departs from the claim).  On a manager that still believes
    the database available, a [save_domain_stats] call that finds the server
    unreachable writes nothing and yet returns [True]: [get_cursor] hands out
    the [DummyCursor], whose [execute] does nothing, and the function runs on
    to [return True].  Only the calls after it return [False].  The two
    read operations return [None] and [[]] as claimed. *)
Theorem save_domain_stats_unreachable_returns_true
    (json_dumps : value -> option string) (s : Store) (stats : dict)
    (account domain : string) (limit : Z) (filter : option string)
    (fault : bool) (day t : nat) :
  let e := {| connect_ok := false; statement_ok := fault; today := day; now := t |} in
  save_domain_stats json_dumps new_manager s e stats account
  = ({| db_available := false |}, s, true)
  /\ save_domain_stats json_dumps {| db_available := false |} s e stats account
     = ({| db_available := false |}, s, false)
  /\ snd (get_latest_domain_stats new_manager s e domain filter) = None
  /\ snd (get_all_domains_stats new_manager s e limit filter) = [].
Proof. intros e. repeat split. Qed.

(** ** Initialisation at the start of the program *)

Section Startup.
Variable envs : nat -> nat -> Env.

Lemma init_database_reached m s (es : nat -> Env) :
  db_available m = true ->
  connect_ok (es 0) = true -> statement_ok (es 0) = true ->
  init_database m s es = (Ok tt, m, fresh_store (es 0)).
Proof.
  intros Hav Hc Hs. unfold init_database. cbn.
  unfold init_attempt, get_cursor, get_connection.
  rewrite Hav, Hc. cbn. rewrite Hav, Hs. done.
Qed.

(** C10.  Whatever the database holds when the program starts, once the
    first attempt of [init_database] reaches the server the four tables are
    dropped and created again: [main] goes on with a database whose
    [domain_stats], [scraping_sessions] and [scraping_accounts] tables are
    empty and whose [api_keys] table holds the sample key alone.  Nothing
    persisted by an earlier run is left. *)
Theorem main_init_erases_persisted_state (s : Store) :
  connect_ok (envs 0 0) = true ->
  statement_ok (envs 0 0) = true ->
  main_init s envs = (new_manager, fresh_store (envs 0 0))
  /\ domain_stats (snd (main_init s envs)) = []
  /\ scraping_sessions (snd (main_init s envs)) = []
  /\ scraping_accounts (snd (main_init s envs)) = []
  /\ api_keys (snd (main_init s envs))
     = [mkApiKey 1 "test-api-key-12345" "Default API Key" true (now (envs 0 0))].
Proof.
  intros Hc Hs.
  assert (main_init s envs = (new_manager, fresh_store (envs 0 0))) as ->.
  { unfold main_init. cbn [main_init_from].
    by rewrite (init_database_reached new_manager s (envs 0) eq_refl Hc Hs). }
  repeat split.
Qed.

End Startup.

(** C10, on the scenario: a program that starts on the database left by the
    scenario finds no row of it. *)
Lemma main_init_erases_persisted_state_witness :
  length (domain_stats scenario_store) = 3
  /\ domain_stats (snd (main_init scenario_store (fun _ _ => env_ok 8 0))) = [].
Proof.
  split; [vm_compute; reflexivity |].
  exact (proj1 (proj2 (main_init_erases_persisted_state
                         (fun _ _ => env_ok 8 0) scenario_store
                         eq_refl eq_refl))).
Defined.

End DatabaseFacts.

(* ===================================================================== *)
(** * Properties of the snapshot documents *)
(* ===================================================================== *)

Module SnapshotFacts.
Import Py.
Import Database (result, Ok, Raise).
Import Snapshot.

(** ** The loop of [calculate_aggregated_metrics] *)

Lemma collected_cons key d l :
  collected key (d :: l)
  = (if is_none (get d key) then [] else [get d key]) ++ collected key l.
Proof. unfold collected. cbn. by destruct (is_none (get d key)). Qed.

Lemma tally_fold items t :
  fold_left tally_account items t
  = {| delivered_counts :=
         delivered_counts t ++ collected "delivered_count" (records items);
       complaint_rates :=
         complaint_rates t ++ collected "complaint_rate" (records items);
       verified_count :=
         verified_count t + length (List.filter is_verified (records items));
       has_data_count :=
         has_data_count t + length (List.filter with_data (records items)) |}.
Proof.
  revert t. induction items as [|[k en] items IH]; intros t.
  - destruct t. cbn. by rewrite !app_nil_r, !Nat.add_0_r.
  - cbn [fold_left]. rewrite IH. unfold tally_account at 1 2 3 4.
    cbn [snd delivered_counts complaint_rates verified_count has_data_count].
    change (records ((k, en) :: items)) with (data en :: records items).
    rewrite !collected_cons. cbn [List.filter].
    unfold is_verified at 2, with_data at 2.
    f_equal.
    + destruct (is_none _); by rewrite <- ?app_assoc.
    + destruct (is_none _); by rewrite <- ?app_assoc.
    + destruct (truthy _); cbn; lia.
    + destruct (truthy _); cbn; lia.
Qed.

(** ** Sums and means *)









(** ** Dictionaries kept as lists of items *)




Lemma dict_set_not_nil {V} k (v : V) l : dict_set k v l <> [].
Proof.
  destruct l as [|[k' v'] l]; [done |]. cbn. by destruct (decide (k' = k)).
Qed.


(** ** One merge *)



(** ** A sequence of merges *)








(** ** The metrics do not depend on the order of the accounts *)










(** ** Merges that overlap *)







(** The load step and the write step of one worker, taken one after the
    other, are [save_domain_json]. *)
Lemma step_merger_twice fs domain c1 c2 :
  merge_concurrently fs domain c1 c2 [First; First]
  = fst (save_domain_json fs domain (record c1) (from_account c1) (clock c1)).
Proof. reflexivity. Qed.

(** ** The scenario of the specification *)





End SnapshotFacts.

(* ===================================================================== *)
(** * Properties of the worker *)
(* ===================================================================== *)

Module WorkerFacts.
Import Worker.

Local Open Scope nat_scope.

(** ** The cancellation flag and the hourly sleep *)

Lemma is_running_earlier e t t' :
  is_running e t = true -> t' <= t -> is_running e t' = true.
Proof.
  unfold is_running. destruct (stop_at e) as [stop|]; [| done].
  rewrite !Nat.ltb_lt. lia.
Qed.

Lemma sleep_in_ticks_S e n t :
  sleep_in_ticks e (S n) t
  = if is_running e t then sleep_in_ticks e n (t + tick) else t.
Proof. reflexivity. Qed.

Lemma sleep_in_ticks_stopped e n t :
  is_running e t = false -> sleep_in_ticks e n t = t.
Proof. destruct n; [done |]. cbn. by intros ->. Qed.

Lemma sleep_in_ticks_full e n t :
  is_running e (t + tick * n - tick) = true ->
  sleep_in_ticks e n t = t + tick * n.
Proof.
  revert t. induction n as [|n IH]; intros t Hrun; cbn [sleep_in_ticks].
  - lia.
  - rewrite (is_running_earlier e _ t Hrun) by (unfold tick; lia).
    destruct n as [|n'].
    + cbn. unfold tick. lia.
    + rewrite IH.
      * unfold tick. lia.
      * eapply is_running_earlier; [exact Hrun |]. unfold tick. lia.
Qed.

Lemma sleep_in_ticks_ge e n t : t <= sleep_in_ticks e n t.
Proof.
  revert t. induction n as [|n IH]; intros t; cbn; [lia |].
  destruct (is_running e t); [| lia].
  specialize (IH (t + tick)). lia.
Qed.

(** The sleep is left less than one tick after the flag was cleared. *)
Lemma sleep_in_ticks_cancelled e n t stop :
  stop_at e = Some stop -> t < stop + tick ->
  sleep_in_ticks e n t < stop + tick.
Proof.
  intros Hstop. revert t. induction n as [|n IH]; intros t Ht; cbn; [lia |].
  destruct (is_running e t) eqn:Hrun; [| lia].
  apply IH. unfold is_running in Hrun. rewrite Hstop in Hrun.
  apply Nat.ltb_lt in Hrun. lia.
Qed.

(** ** One turn of the loop *)

Lemma iteration_failures e st :
  consecutive_failures (fst (iteration e st))
  = match fst (cycle e (calls st)) with
    | Succeeded => 0
    | _ => S (consecutive_failures st)
    end.
Proof.
  unfold iteration. destruct (cycle e (calls st)) as [[| |] d]; cbn [fst snd consecutive_failures]; try done.
  by destruct (max_consecutive_failures <=? S (consecutive_failures st)).
Qed.

(** A turn that does not leave by [break] either moves the clock by a tick
    or more, or ends at an instant at which the flag is cleared. *)
Lemma iteration_progress e st :
  snd (iteration e st) = false ->
  clock st + tick <= clock (fst (iteration e st))
  \/ (clock st <= clock (fst (iteration e st))
      /\ is_running e (clock (fst (iteration e st))) = false).
Proof.
  unfold iteration.
  destruct (cycle e (calls st)) as [[| |] d]; cbn [fst snd clock].
  - intros _. change (wait_seconds / tick) with 12.
    rewrite (sleep_in_ticks_S e 11).
    destruct (is_running e (clock st + d)) eqn:Hrun.
    + left. pose proof (sleep_in_ticks_ge e 11 (clock st + d + tick)). lia.
    + right. split; [lia | done].
  - intros _. left. unfold retry_delay, tick. lia.
  - destruct (max_consecutive_failures <=? S (consecutive_failures st));
      cbn [fst snd clock]; [done |].
    intros _. left. unfold retry_delay, tick. lia.
Qed.

(** ** The loop *)

Lemma cycle_loop_S fuel e st :
  cycle_loop (S fuel) e st
  = if is_running e (clock st)
       && (consecutive_failures st <? max_consecutive_failures)
    then
      if snd (iteration e st) then Some (fst (iteration e st))
      else cycle_loop fuel e (fst (iteration e st))
    else Some st.
Proof. cbn [cycle_loop]. by destruct (iteration e st). Qed.

Lemma iteration_break e st :
  snd (iteration e st) = true ->
  max_consecutive_failures <= consecutive_failures (fst (iteration e st)).
Proof.
  unfold iteration.
  destruct (cycle e (calls st)) as [[| |] d]; cbn [fst snd]; try done.
  destruct (max_consecutive_failures <=? S (consecutive_failures st)) eqn:Hle;
    cbn [fst snd consecutive_failures]; [| done].
  intros _. by apply Nat.leb_le.
Qed.

Lemma cycle_loop_exit fuel e st final :
  cycle_loop fuel e st = Some final ->
  max_consecutive_failures <= consecutive_failures final
  \/ is_running e (clock final) = false.
Proof.
  revert st. induction fuel as [|fuel IH]; intros st; [done |].
  rewrite cycle_loop_S.
  destruct (is_running e (clock st)) eqn:Hrun; cbn [andb].
  - destruct (consecutive_failures st <? max_consecutive_failures) eqn:Hlt.
    + destruct (snd (iteration e st)) eqn:Hbrk; [| by apply IH].
      intros [= <-]. left. by apply iteration_break.
    + intros [= <-]. left. by apply Nat.ltb_ge in Hlt.
  - intros [= <-]. by right.
Qed.

Lemma cycle_loop_stops_at_once fuel e st :
  max_consecutive_failures <= consecutive_failures st
  \/ is_running e (clock st) = false ->
  cycle_loop (S fuel) e st = Some st.
Proof.
  intros H. rewrite cycle_loop_S.
  destruct H as [H | ->]; [| done].
  apply Nat.ltb_ge in H. rewrite H. by rewrite andb_false_r.
Qed.

Lemma cycle_loop_goes_on fuel e st :
  consecutive_failures st < max_consecutive_failures ->
  is_running e (clock st) = true ->
  cycle_loop (S fuel) e st
  = if snd (iteration e st) then Some (fst (iteration e st))
    else cycle_loop fuel e (fst (iteration e st)).
Proof.
  intros Hlt Hrun. rewrite cycle_loop_S, Hrun.
  apply Nat.ltb_lt in Hlt. by rewrite Hlt.
Qed.

Lemma cycle_loop_failures_bounded fuel e st final :
  consecutive_failures st <= max_consecutive_failures ->
  cycle_loop fuel e st = Some final ->
  consecutive_failures final <= max_consecutive_failures.
Proof.
  revert st. induction fuel as [|fuel IH]; intros st Hle; [done |].
  rewrite cycle_loop_S.
  destruct (is_running e (clock st)
            && (consecutive_failures st <? max_consecutive_failures)) eqn:Hc.
  - apply andb_true_iff in Hc as [_ Hlt]. apply Nat.ltb_lt in Hlt.
    assert (consecutive_failures (fst (iteration e st))
            <= max_consecutive_failures) as Hle'.
    { rewrite iteration_failures.
      destruct (fst (cycle e (calls st)));
        unfold max_consecutive_failures in *; lia. }
    destruct (snd (iteration e st)); [by intros [= <-] | by apply IH].
  - by intros [= <-].
Qed.

(** Once [stop_scraping] has been called, the loop is left. *)
Lemma cycle_loop_terminates e stop st :
  stop_at e = Some stop ->
  exists fuel final, cycle_loop fuel e st = Some final.
Proof.
  intros Hstop.
  remember (stop - clock st) as k eqn:Hk.
  revert st Hk. induction k as [k IH] using lt_wf_ind. intros st Hk.
  destruct (is_running e (clock st)) eqn:Hrun.
  2: { exists 1, st. apply cycle_loop_stops_at_once. by right. }
  destruct (le_lt_dec max_consecutive_failures (consecutive_failures st))
    as [Hge | Hlt].
  { exists 1, st. apply cycle_loop_stops_at_once. by left. }
  destruct (snd (iteration e st)) eqn:Hbrk.
  { exists 1, (fst (iteration e st)).
    rewrite cycle_loop_goes_on by done. by rewrite Hbrk. }
  assert (clock st < stop) as Hbefore.
  { unfold is_running in Hrun. rewrite Hstop in Hrun.
    by apply Nat.ltb_lt in Hrun. }
  destruct (iteration_progress e st Hbrk) as [Hadv | [_ Hoff]].
  - destruct (IH (stop - clock (fst (iteration e st)))) with
      (st := fst (iteration e st)) as (fuel & final & Hfinal);
      [unfold tick in Hadv; lia | done |].
    exists (S fuel), final. rewrite cycle_loop_goes_on by done.
    by rewrite Hbrk.
  - exists 2, (fst (iteration e st)).
    rewrite cycle_loop_goes_on by done. rewrite Hbrk.
    apply cycle_loop_stops_at_once. by right.
Qed.

(** C6.  In the cycle loop of [start_persistent_scraping]:
    - after a successful cycle [consecutive_failures] is 0 and, unless the
      worker is stopped meanwhile, the next cycle starts a full hour later;
    - after a failed cycle (a false result or an exception)
      [consecutive_failures] is one more, and the delay before the next
      cycle is [min(300 * consecutive_failures, 1800)] seconds; the body
      leaves by [break] only after an exception that brings the count to
      the threshold;
    - the loop is left only in a state where [consecutive_failures] has
      reached the threshold (and not passed it) or the worker was stopped,
      it is left at once in such a state, and it goes on with another cycle
      in every other state;
    - once [stop_scraping] has been called the loop is left. *)
Theorem cycle_loop_discipline (e : Env) (st : LoopState) :
  let outcome := fst (cycle e (calls st)) in
  let duration := snd (cycle e (calls st)) in
  let next := fst (iteration e st) in
  let left_by_break := snd (iteration e st) in
  (outcome = Succeeded ->
     consecutive_failures next = 0
     /\ left_by_break = false
     /\ (is_running e (clock st + duration + wait_seconds - tick) = true ->
         clock next = clock st + duration + wait_seconds))
  /\ (outcome <> Succeeded ->
      consecutive_failures next = S (consecutive_failures st)
      /\ (left_by_break = false ->
          clock next
          = clock st + duration
            + Nat.min (300 * consecutive_failures next) 1800)
      /\ (left_by_break = true <->
          outcome = Raised
          /\ max_consecutive_failures <= consecutive_failures next))
  /\ (forall fuel final,
        cycle_loop fuel e st = Some final ->
        max_consecutive_failures <= consecutive_failures final
        \/ is_running e (clock final) = false)
  /\ (forall fuel final,
        consecutive_failures st <= max_consecutive_failures ->
        cycle_loop fuel e st = Some final ->
        consecutive_failures final <= max_consecutive_failures)
  /\ (forall fuel,
        max_consecutive_failures <= consecutive_failures st
        \/ is_running e (clock st) = false ->
        cycle_loop (S fuel) e st = Some st)
  /\ (forall fuel,
        consecutive_failures st < max_consecutive_failures ->
        is_running e (clock st) = true ->
        cycle_loop (S fuel) e st
        = if left_by_break then Some next else cycle_loop fuel e next)
  /\ (forall stop,
        stop_at e = Some stop ->
        exists fuel final, cycle_loop fuel e st = Some final).
Proof.
  intros outcome duration next left_by_break.
  split; [| split; [| split; [| split; [| split; [| split]]]]].
  - subst outcome duration next left_by_break. unfold iteration.
    destruct (cycle e (calls st)) as [o d]. cbn [fst snd]. intros ->.
    cbn [fst snd clock consecutive_failures].
    split; [done |]. split; [done |].
    intros Hrun. change (wait_seconds / tick) with 12.
    rewrite sleep_in_ticks_full.
    + unfold tick, wait_seconds. lia.
    + eapply is_running_earlier; [exact Hrun |].
      unfold tick, wait_seconds. lia.
  - subst outcome duration next left_by_break. unfold iteration.
    destruct (cycle e (calls st)) as [[| |] d];
      cbn [fst snd clock consecutive_failures]; [done | |].
    + intros _. split; [done |]. split; [done |].
      split; [done | by intros [? _]].
    + intros _.
      destruct (max_consecutive_failures <=? S (consecutive_failures st))
        eqn:Hle; cbn [fst snd clock consecutive_failures].
      * split; [done |]. split; [done |].
        split; [| done]. intros _. split; [done | by apply Nat.leb_le].
      * split; [done |]. split; [done |].
        split; [done |]. intros [_ H]. apply Nat.leb_gt in Hle. lia.
  - intros fuel final. apply cycle_loop_exit.
  - intros fuel final. apply cycle_loop_failures_bounded.
  - intros fuel. apply cycle_loop_stops_at_once.
  - intros fuel. apply cycle_loop_goes_on.
  - intros stop. apply cycle_loop_terminates.
Qed.

(** C6, on a worker whose cycles all fail and which is never stopped: the
    delays are 300, 600, 900, 1200 and 1500 seconds, and the loop is left
    after the fifth failure with [consecutive_failures] at the threshold. *)
Lemma cycle_loop_discipline_witness :
  let e := env_of None [Failed; Failed; Failed; Failed; Failed] in
  let st := mkLoopState 0 0 0 0 in
  consecutive_failures (fst (iteration e st)) = 1
  /\ clock (fst (iteration e st)) = 0 + 10 + 300
  /\ exists final,
       cycle_loop 6 e st = Some final
       /\ clock final = 5 * 10 + (300 + 600 + 900 + 1200 + 1500)
       /\ (max_consecutive_failures <= consecutive_failures final
           \/ is_running e (clock final) = false).
Proof.
  intros e st.
  destruct (cycle_loop_discipline e st) as (_ & Hfail & Hexit & _).
  destruct Hfail as (Hcount & Hdelay & _); [discriminate |].
  split; [exact Hcount |]. split; [rewrite (Hdelay eq_refl); reflexivity |].
  eexists. split; [vm_compute; reflexivity |]. split; [reflexivity |].
  apply (Hexit 6). vm_compute. reflexivity.
Defined.

(** C7 (the code departs from the claim).  The worker of the scenario fails
    its first two cycles.  The second failure ends at second 320 and starts
    a back-off sleep of 600 seconds, a single [time.sleep].  [stop_scraping]
    is called at second 321.  The worker thread ends at second 920, 599
    seconds after the request and not within one tick of 300 seconds. *)
Theorem backoff_sleep_ignores_stop :
  let e := env_of (Some 321) [Failed; Failed] in
  exists st,
    start_persistent_scraping 3 e = Some (LoopLeft st)
    /\ consecutive_failures st = 2
    /\ clock st = 920
    /\ tick < clock st - 321.
Proof.
  cbv zeta. eexists. split; [vm_compute; reflexivity |].
  cbn. unfold tick. repeat split. lia.
Qed.

(** The hourly sleep, by contrast, is left less than one tick after
    [stop_scraping] was called during it, and the loop is then left at
    once. *)
Lemma hourly_sleep_heeds_stop e st stop fuel :
  stop_at e = Some stop ->
  fst (cycle e (calls st)) = Succeeded ->
  clock st + snd (cycle e (calls st)) <= stop ->
  stop < clock st + snd (cycle e (calls st)) + wait_seconds ->
  let next := fst (iteration e st) in
  clock next < stop + tick
  /\ stop <= clock next
  /\ cycle_loop (S fuel) e next = Some next.
Proof.
  intros Hstop Hout Hafter Hbefore next. subst next. unfold iteration.
  destruct (cycle e (calls st)) as [o d]. cbn [fst snd] in *. subst o.
  cbn [fst snd clock]. change (wait_seconds / tick) with 12.
  assert (stop <= sleep_in_ticks e 12 (clock st + d)) as Hge.
  { destruct (le_lt_dec stop (sleep_in_ticks e 12 (clock st + d))) as [|Hlt];
      [done | exfalso].
    assert (is_running e (clock st + d + tick * 12 - tick) = true) as Hrun.
    { assert (forall n t, sleep_in_ticks e n t < stop ->
                          sleep_in_ticks e n t = t + tick * n) as Hfull.
      { clear -Hstop. induction n as [|n IH]; intros t Hlt;
          [cbn; lia |].
        rewrite sleep_in_ticks_S in *.
        destruct (is_running e t) eqn:Hr.
        - rewrite IH by done. unfold tick. lia.
        - unfold is_running in Hr. rewrite Hstop in Hr.
          apply Nat.ltb_ge in Hr. lia. }
      specialize (Hfull 12 _ Hlt). unfold is_running. rewrite Hstop.
      apply Nat.ltb_lt. unfold tick in *. lia. }
    rewrite sleep_in_ticks_full in Hlt by done.
    unfold tick, wait_seconds in *. lia. }
  split; [apply sleep_in_ticks_cancelled with (stop := stop); [done | ]; unfold tick; lia |].
  split; [done |].
  apply cycle_loop_stops_at_once. right. cbn [clock].
  unfold is_running. rewrite Hstop. by apply Nat.ltb_ge.
Qed.

(** On the scenario: the first cycle succeeds at second 10 and
    [stop_scraping] is called at second 1000, during the hourly sleep; the
    sleep is left at second 1210, at the next check of the flag. *)
Lemma hourly_sleep_heeds_stop_witness :
  let e := env_of (Some 1000) [Succeeded] in
  let next := fst (iteration e (mkLoopState 0 0 0 0)) in
  clock next = 1210 /\ clock next < 1000 + tick
  /\ cycle_loop 1 e next = Some next.
Proof.
  intros e next.
  destruct (hourly_sleep_heeds_stop e (mkLoopState 0 0 0 0) 1000 0)
    as (Hlt & _ & Hleft).
  - reflexivity.
  - reflexivity.
  - vm_compute. lia.
  - vm_compute. lia.
  - split; [vm_compute; reflexivity |]. split; [exact Hlt | exact Hleft].
Defined.

End WorkerFacts.

(* ===================================================================== *)
(** * Properties of the supervisor *)
(* ===================================================================== *)

Module SupervisorFacts.
Import Supervisor.

Local Open Scope nat_scope.

(** Once [is_running] is false, [keep_main_thread_alive] returns at its
    first test. *)
Lemma keep_main_thread_alive_stopped fuel e monitor_count m :
  is_running m = false ->
  keep_main_thread_alive_from (S fuel) e monitor_count m = Some m.
Proof. intros H. cbn [keep_main_thread_alive_from]. by rewrite H. Qed.

Lemma start_threads_is_running i total pending m :
  is_running (start_threads i total pending m) = is_running m.
Proof.
  revert i m. induction pending as [|s pending IH]; intros i m; [done |].
  cbn [start_threads]. by rewrite IH.
Qed.

(** [restart_all_scrapers] leaves [is_running] false: [stop_all_accounts]
    clears it and nothing sets it again, so the [keep_main_thread_alive]
    that ends the restart returns at once. *)
Lemma restart_all_scrapers_not_running fuel e m :
  exists m',
    restart_all_scrapers (S fuel) e m = Some m' /\ is_running m' = false.
Proof.
  unfold restart_all_scrapers, restart_all_scrapers_with,
    start_all_accounts_with.
  destruct (accounts e) as [|a l] eqn:Hacc.
  - eexists. split; [reflexivity | done].
  - unfold keep_main_thread_alive. eexists.
    rewrite keep_main_thread_alive_stopped.
    + split; [reflexivity |]. by rewrite start_threads_is_running.
    + by rewrite start_threads_is_running.
Qed.

(** C8 (the code departs from the claim).  Three workers run; all three die
    between the fourteenth and the fifteenth poll of the supervisor.
    - The fifteenth poll sees no thread alive and restarts the fleet: new
      scrapers and the new threads 3, 4 and 5.  But [stop_all_accounts],
      called by [restart_all_scrapers], has set [is_running] to false and
      nothing sets it back: the [keep_main_thread_alive] called at the end
      of the restart returns at once, the outer loop ends too, and the
      function returns.  Monitoring does not continue after the restart.
    - When the three workers are already dead at a poll whose count is not
      a multiple of 15 (here the first), there is no fleet restart: each
      dead thread is replaced on its own, after its own cooldown, and the
      scrapers are kept. *)
Theorem fleet_restart_ends_monitoring :
  (exists final,
     keep_main_thread_alive 16 (env_fleet_dies 1700) (fleet_started 0)
     = Some final
     /\ threads final = [3; 4; 5]
     /\ is_running final = false
     /\ clock final = 15 * 120 + 30 + 60 + 120)
  /\ (let e := env_fleet_dies 100 in
      let m := sleep 120 (fleet_started 0) in
      check_fleet (keep_main_thread_alive 16 e) e 1 m = Some m
      /\ alive_threads e m = 0
      /\ let m' := restart_dead_threads e 0 (zip (threads m) (scrapers m)) m in
         threads m' = [3; 4; 5]
         /\ scrapers m' = scrapers m
         /\ is_running m' = true
         /\ clock m' = 120 + 3 * (300 + 60)).
Proof.
  split.
  - eexists. split; [vm_compute; reflexivity |]. by vm_compute.
  - by vm_compute.
Qed.

End SupervisorFacts.

(* ===================================================================== *)
(** * More properties of DatabaseManager *)
(* ===================================================================== *)

Module DatabaseMore.
Import Py Database Queries DatabaseFacts.

(** ** The order of the results *)

Lemma insert_desc_in r l x : In x (insert_desc r l) <-> x = r \/ In x l.
Proof.
  rewrite <- !list_elem_of_In, insert_desc_perm, elem_of_cons.
  by rewrite list_elem_of_In.
Qed.

Lemma insert_desc_latest_first r l :
  latest_first l -> latest_first (insert_desc r l).
Proof.
  unfold latest_first. induction 1 as [|x l Hl IH Hx]; cbn.
  - repeat constructor.
  - destruct (text_le (timestamp x) (timestamp r)) eqn:Hle.
    + constructor; [by constructor |].
      constructor; [done |].
      rewrite Forall_forall in *. intros y Hy.
      eapply text_le_trans; [by apply Hx | done].
    + constructor; [done |].
      rewrite Forall_forall in *. intros y Hy.
      apply list_elem_of_In, insert_desc_in in Hy as [-> | Hy].
      * destruct (text_le_total (timestamp x) (timestamp r)); congruence.
      * by apply Hx, list_elem_of_In.
Qed.

Lemma order_by_timestamp_desc_latest_first l :
  latest_first (order_by_timestamp_desc l).
Proof.
  induction l as [|x l IH]; cbn; [constructor |].
  by apply insert_desc_latest_first.
Qed.

Lemma latest_first_take n l : latest_first l -> latest_first (take n l).
Proof.
  unfold latest_first. intros H. revert n.
  induction H as [|x l Hl IH Hx]; intros [|n]; cbn; try constructor.
  - apply IH.
  - rewrite Forall_forall in *. intros y Hy. apply Hx.
    by apply (subseteq_take n l).
Qed.

Lemma latest_first_head l r :
  latest_first l -> head l = Some r ->
  forall r', In r' l -> text_le (timestamp r') (timestamp r) = true.
Proof.
  unfold latest_first. destruct 1 as [|x l Hl Hx]; [done |].
  cbn. intros [= ->] r' [<- | Hin]; [apply text_le_refl |].
  rewrite Forall_forall in Hx. by apply Hx, list_elem_of_In.
Qed.

Lemma eligible_account account rows a r :
  account_filter account = Some a -> In r (eligible account rows) ->
  account_email r = a.
Proof.
  unfold eligible. intros ->. rewrite filter_In, bool_decide_eq_true. tauto.
Qed.

(** The rows [get_all_domains_stats] returns are in the order of
    [ORDER BY timestamp DESC], and with an account filter they all belong
    to the account. *)
Theorem get_all_domains_stats_ordered
    (m : Manager) (s : Store) (e : Env) (limit : Z) (account : option string) :
  let result := snd (get_all_domains_stats m s e limit account) in
  latest_first result
  /\ (forall r, In r result -> In r (domain_stats s))
  /\ (forall a r, account_filter account = Some a -> In r result ->
                  account_email r = a).
Proof.
  intros result. subst result. rewrite get_all_domains_stats_eq.
  destruct (db_available m && connect_ok e && statement_ok e
            && negb (limit <? 0)%Z).
  2: { split; [constructor | split; intros; done]. }
  split; [apply latest_first_take, order_by_timestamp_desc_latest_first |].
  assert (forall r,
             In r (take (Z.to_nat limit)
                     (order_by_timestamp_desc
                        (join_max (eligible account (domain_stats s))
                           (max_timestamps (eligible account (domain_stats s))))))
             -> In r (eligible account (domain_stats s))) as Hsub.
  { intros r Hr. apply In_take in Hr.
    rewrite <- list_elem_of_In, order_by_timestamp_desc_perm,
      list_elem_of_In in Hr.
    unfold join_max in Hr. apply filter_In in Hr. tauto. }
  split.
  - intros r Hr. by apply (eligible_sub account), Hsub.
  - intros a r Ha Hr. by apply (eligible_account account (domain_stats s)), Hsub.
Qed.

(** ** [get_latest_domain_stats] *)

Lemma get_latest_domain_stats_eq m s e domain account :
  snd (get_latest_domain_stats m s e domain account)
  = if db_available m && connect_ok e && statement_ok e
    then select_latest (domain_stats s) domain account
    else None.
Proof.
  unfold get_latest_domain_stats, get_cursor, get_connection.
  destruct (db_available m); cbn; [| done].
  destruct (connect_ok e); cbn; [| done].
  by destruct (statement_ok e).
Qed.

Lemma select_latest_Some rows domain account r :
  select_latest rows domain account = Some r ->
  In r (matching rows domain account)
  /\ forall r', In r' (matching rows domain account) ->
                text_le (timestamp r') (timestamp r) = true.
Proof.
  unfold select_latest. fold (matching rows domain account). intros Hhead.
  pose proof (order_by_timestamp_desc_perm (matching rows domain account))
    as Hperm.
  split.
  - rewrite <- list_elem_of_In, <- Hperm. by apply head_Some_elem_of.
  - intros r' Hr'.
    apply (latest_first_head _ r (order_by_timestamp_desc_latest_first _) Hhead).
    by rewrite <- list_elem_of_In, Hperm, list_elem_of_In.
Qed.

Lemma select_latest_None rows domain account :
  select_latest rows domain account = None <->
  matching rows domain account = [].
Proof.
  unfold select_latest. fold (matching rows domain account).
  rewrite head_None. split.
  - intros H. apply Permutation_nil_r.
    by rewrite <- H, order_by_timestamp_desc_perm.
  - by intros ->.
Qed.

(** [get_latest_domain_stats] returns a row of the requested domain (and
    of the account, when one is given) whose timestamp no other such row
    exceeds; and when the database answers it returns [None] only if there
    is no such row. *)
Theorem get_latest_domain_stats_latest
    (m : Manager) (s : Store) (e : Env) (domain : string)
    (account : option string) :
  let result := snd (get_latest_domain_stats m s e domain account) in
  (forall r, result = Some r ->
     In r (domain_stats s)
     /\ domain_name r = domain
     /\ (forall a, account_filter account = Some a -> account_email r = a)
     /\ forall r', In r' (matching (domain_stats s) domain account) ->
                   text_le (timestamp r') (timestamp r) = true)
  /\ (db_available m = true -> connect_ok e = true -> statement_ok e = true ->
      (result = None <-> matching (domain_stats s) domain account = [])).
Proof.
  intros result. subst result. rewrite get_latest_domain_stats_eq. split.
  - intros r Hr.
    destruct (db_available m && connect_ok e && statement_ok e); [| done].
    apply select_latest_Some in Hr as [Hin Hmax].
    unfold matching in Hin. apply filter_In in Hin as [Hin Hd].
    apply bool_decide_eq_true in Hd.
    split; [by apply (eligible_sub account) |]. split; [done |].
    split; [| done]. intros a Ha. by apply (eligible_account account (domain_stats s)).
  - intros -> -> ->. cbn. apply select_latest_None.
Qed.

(** ** Saving and reading back *)

Section SaveAndRead.
Variable json_dumps : value -> option string.






End SaveAndRead.


(** ** Initialisation *)


(** [main] gets one real chance to initialise the database.  The loop of
    [main] calls [init_database] again only after it raised, and by then
    [db_available] is false, so the second call skips the initialisation
    and returns.  Hence [main] goes on either with the database as it found
    it and an unavailable manager, or with the database created by one of
    the three attempts of the first call. *)
Theorem main_init_outcomes (s : Store) (envs : nat -> nat -> Env) :
  main_init s envs = ({| db_available := false |}, s)
  \/ exists i,
       i < 3
       /\ connect_ok (envs 0 i) = true /\ statement_ok (envs 0 i) = true
       /\ main_init s envs = (new_manager, fresh_store (envs 0 i)).
Proof.
  unfold main_init, main_init_from, init_database, init_database_from,
    init_attempt, get_cursor, get_connection, new_manager.
  cbn [db_available negb].
  destruct (connect_ok (envs 0 0)) eqn:C0; cbn; [| by left].
  destruct (statement_ok (envs 0 0)) eqn:S0; cbn.
  { right. exists 0. repeat split; [lia | done..]. }
  destruct (connect_ok (envs 0 1)) eqn:C1; cbn; [| by left].
  destruct (statement_ok (envs 0 1)) eqn:S1; cbn.
  { right. exists 1. repeat split; [lia | done..]. }
  destruct (connect_ok (envs 0 2)) eqn:C2; cbn; [| by left].
  destruct (statement_ok (envs 0 2)) eqn:S2; cbn.
  { right. exists 2. repeat split; [lia | done..]. }
  by left.
Qed.

End DatabaseMore.

(* ===================================================================== *)
(** * Properties of the audit tables *)
(* ===================================================================== *)

Module SessionsFacts.
Import Py Database Sessions.

Lemma is_account_true a r : is_account a r = true <-> email r = a.
Proof. unfold is_account. apply bool_decide_eq_true. Qed.

Lemma is_account_false a r : is_account a r = false <-> email r <> a.
Proof. unfold is_account. apply bool_decide_eq_false. Qed.

Lemma upsert_account_emails a e rows :
  map email (upsert_account a e rows)
  = if existsb (is_account a) rows then map email rows
    else map email rows ++ [a].
Proof.
  unfold upsert_account. destruct (existsb _ rows).
  - rewrite map_map. apply map_ext. intros r. by destruct (is_account a r).
  - by rewrite map_app.
Qed.

Lemma existsb_is_account a rows :
  existsb (is_account a) rows = true <-> In a (map email rows).
Proof.
  rewrite existsb_exists, in_map_iff. split.
  - intros (r & Hin & Hk). exists r. split; [by apply is_account_true | done].
  - intros (r & Hk & Hin). exists r. split; [done | by apply is_account_true].
Qed.

Lemma upsert_account_NoDup a e rows :
  NoDup (map email rows) -> NoDup (map email (upsert_account a e rows)).
Proof.
  intros Hnd. rewrite upsert_account_emails.
  destruct (existsb _ rows) eqn:Hex; [done |].
  apply NoDup_app. split; [done |]. split; [| apply NoDup_singleton].
  intros x Hx ->%list_elem_of_singleton.
  apply list_elem_of_In, existsb_is_account in Hx. congruence.
Qed.

(** The count of the account of the call grows by one, the count of every
    other account stays. *)
Lemma upsert_account_count a e rows a' :
  NoDup (map email rows) ->
  list_sum (map total_sessions
              (List.filter (is_account a') (upsert_account a e rows)))
  = list_sum (map total_sessions (List.filter (is_account a') rows))
    + (if decide (a' = a) then 1 else 0).
Proof.
  intros Hnd. unfold upsert_account.
  destruct (existsb (is_account a) rows) eqn:Hex.
  - apply existsb_is_account in Hex.
    induction rows as [|r rows IH]; [done |].
    cbn [map] in Hnd, Hex. apply NoDup_cons in Hnd as [Hr Hnd].
    cbn [map List.filter].
    destruct (is_account a r) eqn:Ha.
    + apply is_account_true in Ha.
      assert (~ In a (map email rows)) as Hnot
        by (rewrite <- Ha; by rewrite <- list_elem_of_In).
      assert (map (fun r0 =>
                     if is_account a r0
                     then mkScrapingAccount (scraping_account_id r0) (email r0)
                            (account_name r0) (now (base e))
                            (S (total_sessions r0))
                     else r0) rows = rows) as ->.
      { clear -Hnot. induction rows as [|x rows IH]; [done |]. cbn in *.
        destruct (is_account a x) eqn:Hx.
        - apply is_account_true in Hx. tauto.
        - f_equal. apply IH. tauto. }
      assert (forall x y z w,
                 is_account a' (mkScrapingAccount x (email r) y z w)
                 = is_account a' r) as Hsame by reflexivity.
      rewrite Hsame. destruct (is_account a' r) eqn:Ha'.
      * apply is_account_true in Ha'.
        rewrite decide_True by congruence. cbn. lia.
      * apply is_account_false in Ha'.
        rewrite decide_False by congruence. cbn. lia.
    + apply is_account_false in Ha.
      destruct Hex as [Hex | Hex]; [done |].
      specialize (IH Hnd Hex).
      destruct (is_account a' r); cbn [map]; [| exact IH].
      change (list_sum (?x :: ?l)) with (x + list_sum l). rewrite IH. lia.
  - rewrite List.filter_app, map_app, list_sum_app. cbn.
    unfold is_account at 2. cbn [email].
    destruct (decide (a' = a)) as [-> | Hne].
    + rewrite bool_decide_eq_true_2 by done. cbn. lia.
    + rewrite bool_decide_eq_false_2 by congruence. cbn. lia.
Qed.

(** The audit tables always agree.  They agree in the database
    [init_database] creates, and [start_scraping_session] and
    [update_scraping_session] keep them so, whatever the call and its
    outcome: an account has one row in [scraping_accounts], whose
    [total_sessions] is the number of its rows in [scraping_sessions]. *)
Theorem audit_tables_consistent
    (m : Manager) (s : Store) (e : SessionEnv) (e0 : Env)
    (total i processed : nat) (account status : string) :
  audit_consistent (fresh_store e0)
  /\ (audit_consistent s ->
      audit_consistent
        (snd (fst (start_scraping_session m s e total account)))
      /\ audit_consistent
           (snd (update_scraping_session m s e i processed status))).
Proof.
  split.
  { split; [constructor | done]. }
  intros [Hnd Hcount]. split.
  - unfold start_scraping_session.
    destruct (negb (db_available m)); [done |].
    destruct (get_cursor m (base e)) as [m' [|]]; [done |].
    destruct (statement_ok (base e)); [| done].
    cbn [fst snd]. split; cbn [scraping_accounts].
    + by apply upsert_account_NoDup.
    + intros a'. unfold counted_sessions, account_rows, sessions_of.
      cbn [scraping_accounts scraping_sessions].
      rewrite upsert_account_count by done.
      unfold insert_session. rewrite List.filter_app, length_app.
      specialize (Hcount a').
      unfold counted_sessions, account_rows, sessions_of in Hcount.
      rewrite Hcount. f_equal. cbn.
      destruct (decide (a' = account)) as [-> | Hne].
      * by rewrite bool_decide_eq_true_2.
      * rewrite bool_decide_eq_false_2; [done | congruence].
  - unfold update_scraping_session.
    destruct (negb (db_available m)); [done |].
    destruct (get_cursor m (base e)) as [m' [|]]; [done |].
    destruct (statement_ok (base e)); [| done].
    cbn [snd]. split; [done |]. intros a'.
    unfold counted_sessions, account_rows, sessions_of in *.
    cbn [scraping_accounts scraping_sessions]. rewrite Hcount.
    unfold update_session. clear.
    induction (scraping_sessions s) as [|r rows IH]; [done |]. cbn.
    destruct (bool_decide (session_id r = i)); cbn;
      destruct (bool_decide (session_account r = a')); cbn; by rewrite IH.
Qed.

Lemma update_session_other_ids i processed status iso rows :
  (forall r, In r rows -> session_id r <> i) ->
  update_session i processed status iso rows = rows.
Proof.
  intros H. unfold update_session.
  induction rows as [|r rows IH]; [done |]. cbn.
  rewrite bool_decide_eq_false_2 by (apply H; by left).
  f_equal. apply IH. intros r' Hr'. apply H. by right.
Qed.

(** A session from start to end.  When the server answers both calls and
    draws a fresh identifier for the session, [start_scraping_session]
    returns that identifier, and [update_scraping_session] with it rewrites
    the new session alone: the progress and the status are stored, and
    [session_end] is set if the status is ['completed'] and left empty for
    any other status. *)
Theorem session_lifecycle
    (m : Manager) (s : Store) (e1 e2 : SessionEnv) (total processed : nat)
    (account status : string) :
  db_available m = true ->
  connect_ok (base e1) = true -> statement_ok (base e1) = true ->
  connect_ok (base e2) = true -> statement_ok (base e2) = true ->
  (forall r, In r (scraping_sessions s) -> session_id r <> session_serial e1) ->
  let started := start_scraping_session m s e1 total account in
  let updated :=
    update_scraping_session (fst (fst started)) (snd (fst started)) e2
      (snd started) processed status in
  snd started = session_serial e1
  /\ scraping_sessions (snd updated)
     = scraping_sessions s
       ++ [mkScrapingSession (session_serial e1) account (iso_now e1)
             (if decide (status = "completed") then Some (iso_now e2)
              else None)
             processed total status].
Proof.
  intros Hav Hc1 Hs1 Hc2 Hs2 Hfresh started updated.
  subst updated started.
  unfold start_scraping_session, update_scraping_session, get_cursor,
    get_connection.
  rewrite Hav, Hc1, Hs1. cbn [negb fst snd]. rewrite Hav, Hc2, Hs2.
  cbn [negb fst snd scraping_sessions]. split; [done |].
  unfold insert_session, update_session. rewrite map_app.
  fold (update_session (session_serial e1) processed status (iso_now e2)
          (scraping_sessions s)).
  rewrite update_session_other_ids by done. f_equal. cbn.
  by rewrite bool_decide_eq_true_2.
Qed.

(** The fallback identifier names a real session.  When the statements of
    [start_scraping_session] fault, the call returns [1], writes nothing
    and leaves the manager available; an [update_scraping_session] made
    with the returned identifier then rewrites the session whose [id] is 1,
    which the caller did not start. *)
Theorem failed_start_aliases_session_one
    (m : Manager) (s : Store) (e1 e2 : SessionEnv) (total processed : nat)
    (account status : string) (r0 : ScrapingSession) :
  db_available m = true ->
  connect_ok (base e1) = true -> statement_ok (base e1) = false ->
  connect_ok (base e2) = true -> statement_ok (base e2) = true ->
  In r0 (scraping_sessions s) ->
  session_id r0 = 1 ->
  let started := start_scraping_session m s e1 total account in
  let updated :=
    update_scraping_session (fst (fst started)) (snd (fst started)) e2
      (snd started) processed status in
  started = (m, s, 1)
  /\ In (mkScrapingSession 1 (session_account r0) (session_start r0)
           (if decide (status = "completed") then Some (iso_now e2)
            else session_end r0)
           processed (total_domains r0) status)
        (scraping_sessions (snd updated)).
Proof.
  intros Hav Hc1 Hs1 Hc2 Hs2 Hin Hid started updated.
  assert (started = (m, s, 1)) as Hstarted.
  { subst started. unfold start_scraping_session, get_cursor, get_connection.
    by rewrite Hav, Hc1, Hs1. }
  split; [done |]. subst updated. rewrite Hstarted. cbn [fst snd].
  unfold update_scraping_session, get_cursor, get_connection.
  rewrite Hav, Hc2, Hs2. cbn [negb snd scraping_sessions].
  unfold update_session. apply in_map_iff. exists r0. split; [| done].
  by rewrite bool_decide_eq_true_2, Hid.
Qed.

(** On a database with no session yet: account A starts a session of four
    domains, which gets the identifier 1, and closes it after four. *)
Lemma session_lifecycle_witness :
  let started :=
    start_scraping_session new_manager (fresh_store (env_ok 7 0))
      (session_env 1 "2024-10-07T09:00:00" 1 1) 4 "a@yahoo.com" in
  let updated :=
    update_scraping_session (fst (fst started)) (snd (fst started))
      (session_env 2 "2024-10-07T09:20:00" 0 0) (snd started) 4 "completed" in
  snd started = 1
  /\ scraping_sessions (snd updated)
     = [mkScrapingSession 1 "a@yahoo.com" "2024-10-07T09:00:00"
          (Some "2024-10-07T09:20:00") 4 4 "completed"].
Proof.
  apply (session_lifecycle new_manager (fresh_store (env_ok 7 0))
           (session_env 1 "2024-10-07T09:00:00" 1 1)
           (session_env 2 "2024-10-07T09:20:00" 0 0) 4 4 "a@yahoo.com"
           "completed"); try reflexivity.
  intros r [].
Defined.

(** After the session of account A above, a start of account B faults and
    returns 1; B's progress report then lands on A's session. *)
Lemma failed_start_aliases_session_one_witness :
  let s :=
    snd (fst (start_scraping_session new_manager (fresh_store (env_ok 7 0))
                (session_env 1 "2024-10-07T09:00:00" 1 1) 4 "a@yahoo.com")) in
  let started :=
    start_scraping_session new_manager s
      (session_env_fault 2 "2024-10-07T09:05:00") 9 "b@yahoo.com" in
  let updated :=
    update_scraping_session (fst (fst started)) (snd (fst started))
      (session_env 3 "2024-10-07T09:06:00" 0 0) (snd started) 2 "running" in
  started = (new_manager, s, 1)
  /\ In (mkScrapingSession 1 "a@yahoo.com" "2024-10-07T09:00:00" None 2 4
           "running")
        (scraping_sessions (snd updated)).
Proof.
  apply (failed_start_aliases_session_one new_manager _
           (session_env_fault 2 "2024-10-07T09:05:00")
           (session_env 3 "2024-10-07T09:06:00" 0 0) 9 2 "b@yahoo.com"
           "running"
           (mkScrapingSession 1 "a@yahoo.com" "2024-10-07T09:00:00" None 0 4
              "running")); try reflexivity.
  vm_compute. by left.
Defined.

End SessionsFacts.

(* ===================================================================== *)
(** * More properties of the snapshot documents *)
(* ===================================================================== *)

Module SnapshotMore.
Import Py.
Import Database (result, Ok, Raise).
Import Snapshot SnapshotSpec SnapshotFacts.

(** ** What a merge writes *)


(** ** A record the metrics cannot take *)

Lemma sum_not_a_number (l : list value) (v : value) :
  In v l -> as_number v = None -> sum l = None.
Proof.
  unfold sum. generalize (Some (Q2Qc 0)).
  induction l as [|x l IH]; intros acc Hin Hv; [done |].
  cbn [fold_left]. destruct Hin as [-> | Hin].
  - rewrite Hv.
    assert (match acc with Some _ => None | None => None end = @None Qc) as ->
      by by destruct acc.
    clear. induction l as [|y l IH]; [done |]. cbn. apply IH.
  - by apply IH.
Qed.

Lemma average_not_a_number (l : list value) (v : value) :
  In v l -> as_number v = None -> average l = Raise.
Proof.
  intros Hin Hv. unfold average. destruct l as [|x l]; [done |].
  by rewrite (sum_not_a_number _ v Hin Hv).
Qed.

Lemma in_dict_set {V} k (v : V) l : In (k, v) (dict_set k v l).
Proof.
  induction l as [|[k' v'] l IH]; cbn; [by left |].
  destruct (decide (k' = k)); [by left | by right].
Qed.

Lemma in_collected key (l : list dict) (d : dict) :
  In d l -> is_none (get d key) = false -> In (get d key) (collected key l).
Proof.
  intros Hin Hv. unfold collected. apply filter_In. split.
  - apply in_map_iff. by exists d.
  - by rewrite Hv.
Qed.

(** A record whose delivered count or complaint rate is present and is not
    a number cannot be merged: [sum] raises, [save_domain_json] returns
    [""] and the directory is left as it was, whatever it held. *)
Theorem save_domain_json_rejects_text_metric
    (fs : Files) (domain : string) (stats : dict) (account : string)
    (clk : Clock) :
  not_a_number "delivered_count" stats
  \/ not_a_number "complaint_rate" stats ->
  save_domain_json fs domain stats account clk = (fs, "").
Proof.
  intros Hbad. unfold save_domain_json, merge_contribution.
  set (items := dict_set account (mkAccountEntry (now_entry clk) stats)
                  (default [] (accounts (load_existing fs domain)))).
  assert (In stats (records items)) as Hin.
  { unfold records. apply in_map_iff.
    exists (account, mkAccountEntry (now_entry clk) stats).
    split; [done | apply in_dict_set]. }
  unfold calculate_aggregated_metrics. cbn [accounts default from_option id].
  pose proof (dict_set_not_nil account (mkAccountEntry (now_entry clk) stats)
                (default [] (accounts (load_existing fs domain)))) as Hne.
  fold items in Hne. destruct items as [|it items'] eqn:Hitems; [done |].
  cbv beta iota zeta. rewrite tally_fold.
  cbn [delivered_counts complaint_rates empty_tally app].
  destruct Hbad as [[Hpresent Hnum] | [Hpresent Hnum]].
  - rewrite (average_not_a_number _ (get stats "delivered_count"));
      [done | by apply in_collected | done].
  - rewrite (average_not_a_number
               (collected "complaint_rate" (records (it :: items')))
               (get stats "complaint_rate"));
      [| by apply in_collected | done].
    by destruct (average _).
Qed.

(** ** One file per entity *)





(** ** On the scenario *)


(** A record with the text ["n/a"] as delivered count is not merged into
    the document of [x.com], which keeps the contribution of A alone. *)
Lemma save_domain_json_rejects_text_metric_witness :
  let fs := merge_all ∅ "x.com" [contribution_a] in
  save_domain_json fs "x.com" stats_bad_count "b@yahoo.com"
    (clock contribution_b)
  = (fs, "").
Proof.
  apply save_domain_json_rejects_text_metric.
  left. split; vm_compute; reflexivity.
Defined.


End SnapshotMore.

(* ===================================================================== *)
(** * More properties of the worker *)
(* ===================================================================== *)

Module WorkerMore.
Import Worker WorkerFacts.

Local Open Scope nat_scope.

(** ** Before the loop *)


(** ** Giving up and going on *)

(** A worker that is not stopped gives up after five failed cycles in a
    row, and not before: from a state of the loop with [n] failures
    behind it, if the next [5 - n] calls of [run_hourly_scrape_enhanced]
    fail, the loop is left right after these calls with
    [consecutive_failures] at 5. *)
Theorem cycle_loop_gives_up (e : Env) (st : LoopState) :
  stop_at e = None ->
  consecutive_failures st < max_consecutive_failures ->
  (forall n, n < max_consecutive_failures - consecutive_failures st ->
             fst (cycle e (calls st + n)) <> Succeeded) ->
  exists final,
    cycle_loop (S (max_consecutive_failures - consecutive_failures st)) e st
    = Some final
    /\ calls final
       = calls st + (max_consecutive_failures - consecutive_failures st)
    /\ consecutive_failures final = max_consecutive_failures.
Proof.
  intros Hstop.
  assert (forall t, is_running e t = true) as Hrun
    by (intros t; unfold is_running; by rewrite Hstop).
  remember (max_consecutive_failures - consecutive_failures st) as k eqn:Hk.
  revert st Hk. induction k as [|k IH]; intros st Hk Hlt Hfail; [lia |].
  assert (fst (cycle e (calls st)) <> Succeeded) as Hnow
    by (rewrite <- (Nat.add_0_r (calls st)); apply Hfail; lia).
  rewrite cycle_loop_goes_on by done.
  assert (calls (fst (iteration e st)) = S (calls st)) as Hcalls.
  { unfold iteration. destruct (cycle e (calls st)) as [[| |] d];
      cbn [fst calls]; try done.
    by destruct (max_consecutive_failures <=? S (consecutive_failures st)). }
  pose proof (iteration_failures e st) as Hcf.
  destruct (fst (cycle e (calls st))) eqn:Hout; [done | |];
    (destruct (snd (iteration e st)) eqn:Hbrk;
     [ apply iteration_break in Hbrk;
       exists (fst (iteration e st)); split; [done |];
       unfold max_consecutive_failures in *; split; lia
     | destruct k as [|k'];
       [ exists (fst (iteration e st)); split;
         [ apply cycle_loop_stops_at_once; left;
           unfold max_consecutive_failures in *; lia
         | unfold max_consecutive_failures in *; split; lia ]
       | destruct (IH (fst (iteration e st))) as (final & Hfinal & Hc & Hf);
         [ unfold max_consecutive_failures in *; lia
         | unfold max_consecutive_failures in *; lia
         | intros n Hn; rewrite Hcalls;
           replace (S (calls st) + n) with (calls st + S n) by lia;
           apply Hfail; unfold max_consecutive_failures in *; lia
         | exists final; split; [exact Hfinal |];
           split; [rewrite Hc, Hcalls; lia | done] ] ] ]).
Qed.

(** A worker whose cycles all succeed and which is not stopped never
    leaves the loop. *)
Theorem cycle_loop_runs_forever (fuel : nat) (e : Env) (st : LoopState) :
  stop_at e = None ->
  consecutive_failures st < max_consecutive_failures ->
  (forall n, calls st <= n -> fst (cycle e n) = Succeeded) ->
  cycle_loop fuel e st = None.
Proof.
  intros Hstop.
  assert (forall t, is_running e t = true) as Hrun
    by (intros t; unfold is_running; by rewrite Hstop).
  revert st. induction fuel as [|fuel IH]; intros st Hlt Hall; [done |].
  rewrite cycle_loop_goes_on by done.
  assert (fst (cycle e (calls st)) = Succeeded) as Hnow by by apply Hall.
  assert (iteration e st
          = ({| clock := sleep_in_ticks e (wait_seconds / tick)
                           (clock st + snd (cycle e (calls st)));
                cycle_count := S (cycle_count st);
                consecutive_failures := 0;
                calls := S (calls st) |}, false)) as Hit.
  { unfold iteration. destruct (cycle e (calls st)) as [o d].
    cbn [fst snd] in *. by subst o. }
  rewrite Hit. cbn [fst snd]. apply IH.
  - cbn. unfold max_consecutive_failures. lia.
  - intros n Hn. cbn [calls] in Hn. apply Hall. lia.
Qed.

(** The cap of the back-off is never reached.  Inside the loop the delay
    after a failed cycle is [300 * consecutive_failures] exactly, and at
    most 1500 seconds: [min(..., 1800)] never cuts it. *)
Theorem retry_delay_never_capped (e : Env) (st : LoopState) :
  consecutive_failures st < max_consecutive_failures ->
  fst (cycle e (calls st)) <> Succeeded ->
  snd (iteration e st) = false ->
  let next := fst (iteration e st) in
  clock next
  = clock st + snd (cycle e (calls st)) + 300 * consecutive_failures next
  /\ 300 * consecutive_failures next <= 1500.
Proof.
  intros Hlt Hout Hbrk next. subst next. revert Hbrk. unfold iteration.
  unfold max_consecutive_failures in Hlt.
  destruct (cycle e (calls st)) as [[| |] d];
    cbn [fst snd clock consecutive_failures] in *; [done | |].
  - intros _. unfold retry_delay. lia.
  - destruct (max_consecutive_failures <=? S (consecutive_failures st));
      cbn [fst snd clock consecutive_failures]; [done |].
    intros _. unfold retry_delay. lia.
Qed.


(** On a worker that has failed twice and fails its next three cycles. *)
Lemma cycle_loop_gives_up_witness :
  exists final,
    cycle_loop 4 (env_of None [Failed; Raised; Failed])
      (mkLoopState 0 2 2 0) = Some final
    /\ calls final = 3
    /\ consecutive_failures final = 5.
Proof.
  destruct (cycle_loop_gives_up (env_of None [Failed; Raised; Failed])
              (mkLoopState 0 2 2 0)) as (final & H & Hc & Hf).
  - reflexivity.
  - cbn. unfold max_consecutive_failures. lia.
  - intros n Hn. cbn in Hn. unfold max_consecutive_failures in Hn.
    destruct n as [|[|[|n]]]; [discriminate.. | lia].
  - exists final. split; [exact H |]. split; [exact Hc | exact Hf].
Defined.

(** On a worker whose cycles all succeed. *)
Lemma cycle_loop_runs_forever_witness :
  cycle_loop 50 (env_of None []) (mkLoopState 0 0 0 0) = None.
Proof.
  apply cycle_loop_runs_forever.
  - reflexivity.
  - cbn. unfold max_consecutive_failures. lia.
  - intros n _. cbn. by destruct n.
Defined.

(** On a worker at its fourth failure in a row: 1200 seconds. *)
Lemma retry_delay_never_capped_witness :
  let e := env_of None [Failed] in
  let st := mkLoopState 0 3 3 0 in
  clock (fst (iteration e st)) = 0 + 10 + 300 * 4.
Proof.
  intros e st.
  destruct (retry_delay_never_capped e st) as [H _].
  - cbn. unfold max_consecutive_failures. lia.
  - discriminate.
  - reflexivity.
  - exact H.
Defined.

End WorkerMore.

(* ===================================================================== *)
(** * More properties of the manager of the workers *)
(* ===================================================================== *)

Module SupervisorMore.
Import Supervisor.

Local Open Scope nat_scope.

(** ** Starting the workers *)

Lemma start_threads_spec (i total : nat) (pending : list Scraper) (m : Manager) :
  i + length pending = total ->
  let m' := start_threads i total pending m in
  is_running m' = is_running m
  /\ scrapers m' = scrapers m
  /\ threads m' = threads m ++ seq (next_thread m) (length pending)
  /\ next_thread m' = next_thread m + length pending
  /\ (pending <> [] ->
      clock m' + 30 * (i * (i + 1)) = clock m + 30 * (total * (total - 1))).
Proof.
  revert i m. induction pending as [|s pending IH]; intros i m Hlen; cbn zeta.
  - cbn. rewrite app_nil_r, Nat.add_0_r. by repeat split.
  - cbn [start_threads length] in *.
    set (started := {| is_running := is_running m |}).
    destruct (IH (S i) started ltac:(lia)) as (Hr & Hs & Ht & Hn & Hc).
    rewrite Hr, Hs, Ht, Hn. subst started. cbn [is_running scrapers threads
      next_thread clock] in *.
    split; [done |]. split; [done |].
    split; [by rewrite <- app_assoc |].
    split; [lia |]. intros _.
    destruct pending as [|s' pending].
    + cbn [start_threads clock length] in *.
      assert (total = S i) as -> by lia.
      replace (i <? S i - 1) with false
        by (symmetry; apply Nat.ltb_ge; lia).
      replace (S i - 1) with i by lia. lia.
    + specialize (Hc ltac:(done)). cbn [length] in Hlen.
      replace (i <? total - 1) with true in *
        by (symmetry; apply Nat.ltb_lt; lia).
      nia.
Qed.

(** With at least one enabled account, [start_all_accounts_simultaneously]
    hands over to [keep_main_thread_alive] a manager in which every
    scraper, old or new, has one fresh thread, in the order of the
    scrapers, and the new scrapers are those of the accounts, in their
    order; with [n] scrapers the main thread has slept
    [60 + 120 + ... + 60 * (n - 1)], that is [30 * n * (n - 1)] seconds,
    and nothing after the last start. *)
Theorem start_all_accounts_staggered (keep : Manager -> option Manager)
    (e : Env) (m : Manager) :
  accounts e <> [] ->
  let n := length (scrapers m) + length (accounts e) in
  start_all_accounts_with keep e m
  = keep {| is_running := is_running m;
            scrapers := scrapers m ++ map (fun a => mkScraper a true) (accounts e);
            threads := threads m ++ seq (next_thread m) n;
            next_thread := next_thread m + n;
            clock := clock m + 30 * (n * (n - 1)) |}.
Proof.
  intros Hne. cbn zeta. unfold start_all_accounts_with.
  destruct (accounts e) as [|a rest] eqn:Hacc; [done |]. clear Hne.
  rewrite <- Hacc.
  assert (0 < length (accounts e)) as Hpos by (rewrite Hacc; cbn; lia).
  clear Hacc a rest.
  set (n := length (scrapers m) + length (accounts e)).
  set (created := {| is_running := is_running m |}).
  assert (length (scrapers created) = n) as Hn.
  { subst created n. cbn. by rewrite length_app, length_map. }
  destruct (start_threads_spec 0 (length (scrapers created))
              (scrapers created) created ltac:(lia))
    as (Hr & Hs & Ht & Hnx & Hc).
  assert (scrapers created <> []) as Hsome.
  { intros Hnil. rewrite Hnil in Hn. cbn in Hn. lia. }
  specialize (Hc Hsome). rewrite Hn in *.
  destruct (start_threads 0 n (scrapers created) created) as [r sc th nx ck].
  cbn [is_running scrapers threads next_thread clock] in *.
  subst created. cbn [is_running scrapers threads next_thread clock] in *.
  f_equal. subst r sc th nx. f_equal. lia.
Qed.

(** ** Looking after the threads *)

Lemma restart_dead_threads_alive (e : Env) (i : nat)
    (pending : list (nat * Scraper)) (m : Manager) :
  (forall thread, In thread (map fst pending) ->
                  alive e thread (clock m) = true) ->
  restart_dead_threads e i pending m = m.
Proof.
  revert i. induction pending as [|[thread s] pending IH]; intros i Hall;
    [done |].
  cbn [restart_dead_threads]. rewrite (Hall thread) by (cbn; by left).
  apply IH. intros t Ht. apply Hall. cbn. by right.
Qed.

(** One pass of the loop that replaces dead threads changes nothing but
    threads and time: the flag of the manager, its scrapers and the number
    of its threads stay as they are; a thread is replaced by a fresh one
    or kept; and the pass takes at most six minutes per thread it looks
    at.  When the threads it looks at are alive, the manager is left as it
    was. *)
Theorem restart_dead_threads_frame (e : Env) (i : nat)
    (pending : list (nat * Scraper)) (m : Manager) :
  let m' := restart_dead_threads e i pending m in
  is_running m' = is_running m
  /\ scrapers m' = scrapers m
  /\ length (threads m') = length (threads m)
  /\ (forall j thread, threads m' !! j = Some thread ->
        threads m !! j = Some thread
        \/ (i <= j < i + length pending
            /\ next_thread m <= thread < next_thread m'))
  /\ next_thread m <= next_thread m' <= next_thread m + length pending
  /\ clock m <= clock m' <= clock m + 360 * length pending
  /\ ((forall thread, In thread (map fst pending) ->
                      alive e thread (clock m) = true) -> m' = m).
Proof.
  cbn zeta. revert i m.
  induction pending as [|[thread s] pending IH]; intros i m.
  - cbn. repeat split; try lia. intros j t Ht. by left.
  - cbn [restart_dead_threads length].
    set (m1 := if alive e thread (clock m) then m else _).
    assert (is_running m1 = is_running m
            /\ scrapers m1 = scrapers m
            /\ length (threads m1) = length (threads m)
            /\ (forall j t, threads m1 !! j = Some t ->
                  threads m !! j = Some t
                  \/ (j = i /\ t = next_thread m
                      /\ next_thread m1 = S (next_thread m)))
            /\ next_thread m <= next_thread m1 <= S (next_thread m)
            /\ clock m <= clock m1 <= clock m + 360) as (H1 & H2 & H3 & H4 & H5 & H6).
    { subst m1. destruct (alive e thread (clock m)).
      - repeat split; try lia. intros j t Ht. by left.
      - destruct (alive e thread (clock (sleep 300 m))); cbn.
        + repeat split; try lia. intros j t Ht. by left.
        + rewrite length_insert. repeat split; try lia.
          intros j t Ht. destruct (decide (i = j)) as [<- | Hne].
          * destruct (decide (i < length (threads m))) as [Hlt | Hge].
            -- rewrite list_lookup_insert_eq in Ht by done.
               right. split; [done |]. split; [congruence | done].
            -- rewrite list_insert_ge in Ht by lia. by left.
          * rewrite list_lookup_insert_ne in Ht by done. by left. }
    destruct (IH (S i) m1) as (I1 & I2 & I3 & I4 & I5 & I6 & I7).
    split; [congruence |]. split; [congruence |]. split; [congruence |].
    split; [| split; [lia | split; [lia |]]].
    + intros j t Ht. destruct (I4 j t Ht) as [Hold | [Hj Hnew]].
      * destruct (H4 j t Hold) as [Hm | (-> & -> & Hnx)]; [by left |].
        right. split; lia.
      * right. split; lia.
    + intros Hall. rewrite restart_dead_threads_alive.
      * subst m1. rewrite (Hall thread); [done | cbn; by left].
      * subst m1. rewrite (Hall thread) by (cbn; by left).
        intros t Ht. apply Hall. cbn. by right.
Qed.

Lemma alive_threads_all (e : Env) (m : Manager) :
  (forall thread, In thread (threads m) -> alive e thread (clock m) = true) ->
  alive_threads e m = length (threads m).
Proof.
  unfold alive_threads. generalize (clock m) as t.
  induction (threads m) as [|thread l IH]; intros t Hall; [done |].
  cbn. rewrite (Hall thread) by (by left). cbn. f_equal.
  apply IH. intros th Hth. apply Hall. by right.
Qed.

(** While the flag of the manager is set and every thread is alive
    whenever it is looked at, [keep_main_thread_alive] does not return:
    after any number of polls it is still monitoring. *)
Theorem keep_main_thread_alive_never_returns (fuel : nat) (e : Env)
    (monitor_count : nat) (m : Manager) :
  is_running m = true ->
  (forall thread t, In thread (threads m) -> alive e thread t = true) ->
  keep_main_thread_alive_from fuel e monitor_count m = None.
Proof.
  revert monitor_count m.
  induction fuel as [|fuel IH]; intros mc m Hrun Hall; [done |].
  cbn [keep_main_thread_alive_from]. rewrite Hrun. cbn [negb].
  assert (check_fleet (keep_main_thread_alive_from fuel e 0) e (S mc)
            (sleep 120 m) = Some (sleep 120 m)) as ->.
  { unfold check_fleet. destruct (S mc mod 15 =? 0); [| done].
    rewrite alive_threads_all by (intros th Hth; by apply Hall).
    cbn [sleep threads]. by destruct (threads m). }
  rewrite restart_dead_threads_alive.
  - apply IH; [done |]. intros th t Hth. by apply Hall.
  - intros th Hth. apply Hall. cbn [sleep threads scrapers] in Hth.
    apply in_map_iff in Hth as ([th' s] & <- & Hin).
    apply list_elem_of_In, elem_of_zip_l in Hin. by apply list_elem_of_In.
Qed.

(** ** Stopping the workers *)

Lemma join_bounds (e : Env) (thread timeout t : nat) :
  t <= join e thread timeout t <= t + timeout
  /\ (alive e thread t = false -> join e thread timeout t = t).
Proof.
  revert t. induction timeout as [|timeout IH]; intros t; cbn; [split; [lia | done] |].
  destruct (alive e thread t) eqn:Ha; [| split; [lia | done]].
  destruct (IH (S t)) as [? _]. split; [lia | done].
Qed.

(** [stop_all_accounts] clears the flag of the manager and of every
    scraper, keeps the accounts and the threads, and waits at most sixty
    seconds per thread; it does not wait at all when every thread is dead
    already. *)
Theorem stop_all_accounts_bounded (e : Env) (m : Manager) :
  let m' := stop_all_accounts e m in
  is_running m' = false
  /\ map account (scrapers m') = map account (scrapers m)
  /\ (forall s, In s (scrapers m') -> scraper_running s = false)
  /\ threads m' = threads m
  /\ clock m <= clock m' <= clock m + 60 * length (threads m)
  /\ ((forall thread, In thread (threads m) ->
                      alive e thread (clock m) = false) ->
      clock m' = clock m).
Proof.
  cbn zeta. unfold stop_all_accounts.
  cbn [is_running scrapers threads clock].
  split; [done |].
  split; [rewrite map_map; by apply map_ext |].
  split; [intros s Hs; by apply in_map_iff in Hs as (s' & <- & _) |].
  split; [done |].
  generalize (clock m) as t.
  induction (threads m) as [|thread l IH]; intros t; cbn [fold_left length].
  - split; [lia | done].
  - destruct (IH (join e thread 60 t)) as [Hb Hd].
    destruct (join_bounds e thread 60 t) as [Hj Hdead].
    split; [lia |]. intros Hall.
    rewrite Hdead in * by (apply Hall; by left).
    apply Hd. intros th Hth. apply Hall. by right.
Qed.

(** On a manager with one scraper already and two accounts: three threads,
    three minutes. *)
Lemma start_all_accounts_staggered_witness :
  start_all_accounts_with Some
    {| accounts := ["a@yahoo.com"; "b@yahoo.com"]; alive := fun _ _ => true |}
    {| is_running := true; scrapers := [mkScraper "z@yahoo.com" true];
       threads := []; next_thread := 4; clock := 7 |}
  = Some {| is_running := true;
            scrapers := [mkScraper "z@yahoo.com" true;
                         mkScraper "a@yahoo.com" true;
                         mkScraper "b@yahoo.com" true];
            threads := [4; 5; 6]; next_thread := 7; clock := 187 |}.
Proof.
  exact (start_all_accounts_staggered Some
    {| accounts := ["a@yahoo.com"; "b@yahoo.com"]; alive := fun _ _ => true |}
    {| is_running := true; scrapers := [mkScraper "z@yahoo.com" true];
       threads := []; next_thread := 4; clock := 7 |}
    ltac:(discriminate)).
Defined.

(** On three workers that never die. *)
Lemma keep_main_thread_alive_never_returns_witness :
  keep_main_thread_alive_from 40
    {| accounts := three_accounts; alive := fun _ _ => true |} 0
    (fleet_started 0) = None.
Proof.
  apply keep_main_thread_alive_never_returns.
  - reflexivity.
  - intros thread t _. reflexivity.
Defined.

End SupervisorMore.

(* ===================================================================== *)
(** * Properties of AccountManager *)
(* ===================================================================== *)

Module AccountsFacts.
Import Py Accounts.

Lemma filter_enabled_spec (l kept : list value) :
  filter_enabled l = Some kept ->
  Forall (fun acc => exists keep, is_enabled keep acc) l
  /\ Forall (is_enabled true) kept
  /\ sublist kept l
  /\ (forall acc, In acc l -> is_enabled true acc -> In acc kept).
Proof.
  revert kept. induction l as [|acc l IH]; intros kept H; cbn in H.
  - injection H as <-. repeat split; try constructor. by intros acc [].
  - destruct acc as [| | | | |kv]; try discriminate. cbn in H.
    destruct (filter_enabled l) as [rest|]; [| discriminate].
    destruct (IH rest eq_refl) as (Hall & Hkept & Hsub & Hin).
    set (keep := truthy (default (VBool true) (lookup "enabled" kv))) in *.
    assert (is_enabled keep (VDict kv)) as Hacc by (by exists kv).
    split; [constructor; [by exists keep | done] |].
    destruct keep eqn:Hkeep; cbn in H; injection H as <-.
    + split; [by constructor |]. split; [by constructor |].
      intros a [<- | Ha] He; [by left | right; by apply Hin].
    + split; [done |]. split; [by constructor |].
      intros a [<- | Ha] He; [| by apply Hin].
      destruct He as (kv' & [= <-] & He). subst keep. congruence.
Qed.

(** [load_accounts] returns enabled accounts only.  When it returns, every
    account it returns is a dictionary whose [enabled] entry is absent or
    true in the sense of Python, and [validate_accounts] accepts the
    result exactly when it holds such an account. *)
Theorem load_accounts_only_enabled (e : Env) (kept : list value) :
  load_accounts e = Some kept ->
  Forall (is_enabled true) kept
  /\ (validate_accounts kept = true <-> exists acc, In acc kept).
Proof.
  unfold load_accounts. intros H.
  destruct (iterate _) as [l|]; [| discriminate]. cbn in H.
  apply filter_enabled_spec in H as (_ & Hkept & _).
  split; [done |]. destruct kept as [|acc kept]; cbn.
  - split; [done | by intros (acc & [])].
  - split; [| done]. intros _. exists acc. by left.
Qed.

Lemma filter_enabled_all_disabled (l : list value) :
  Forall (is_enabled false) l -> filter_enabled l = Some [].
Proof.
  induction 1 as [|acc l (kv & -> & Hoff) _ IH]; [done |].
  cbn. rewrite Hoff. cbn. by rewrite IH.
Qed.

(** A file of disabled accounts shuts the environment out.  When the file
    gives a list that is not empty and every account of it is disabled,
    [load_accounts] returns no account and [validate_accounts] fails, also
    when [YAHOO_EMAIL] and [YAHOO_PASSWORD] are set: the environment is
    looked at before the disabled accounts are dropped, not after. *)
Theorem load_accounts_disabled_file_blocks_environment (e : Env)
    (l : list value) :
  accounts_from_file (accounts_file e) = VList l ->
  l <> [] ->
  Forall (is_enabled false) l ->
  load_accounts e = Some []
  /\ (forall kept, load_accounts e = Some kept -> validate_accounts kept = false).
Proof.
  intros Hfile Hne Hoff.
  assert (load_accounts e = Some []) as Hload.
  { unfold load_accounts, with_fallback. rewrite Hfile.
    destruct l as [|acc l]; [done |]. cbn [truthy iterate].
    change (filter_enabled (acc :: l) = Some []).
    by apply filter_enabled_all_disabled. }
  split; [done |]. intros kept. rewrite Hload. by intros [= <-].
Qed.

Lemma filter_enabled_environment (e : Env) :
  filter_enabled (environment_accounts e) = Some (environment_accounts e).
Proof.
  unfold environment_accounts.
  destruct (YAHOO_EMAIL e) as [email|]; [| done].
  destruct (YAHOO_PASSWORD e) as [password|]; [| done].
  by destruct (truthy (VStr email) && truthy (VStr password)).
Qed.

Lemma load_accounts_nothing_from_file (e : Env) :
  accounts_from_file (accounts_file e) = VList [] ->
  load_accounts e = Some (environment_accounts e).
Proof.
  intros Hfile. unfold load_accounts, with_fallback. rewrite Hfile.
  cbn [truthy].
  destruct (environment_accounts e) as [|acc l] eqn:Henv; [done |].
  cbn [iterate]. cbn [mbind option_bind]. rewrite <- Henv.
  apply filter_enabled_environment.
Qed.

(** A file that cannot be used never makes [load_accounts] raise.  When
    the file is missing or unreadable, or when its top-level value is a
    scalar, a string, or a list that has the string [yahoo_accounts] among
    its elements, the exceptions of the [try] block are all caught and the
    result is the account of the environment: one account when
    [YAHOO_EMAIL] and [YAHOO_PASSWORD] are both set and not empty, none
    otherwise. *)
Theorem load_accounts_unusable_file (e : Env) :
  yields_nothing (accounts_file e) ->
  load_accounts e = Some (environment_accounts e)
  /\ length (environment_accounts e) <= 1.
Proof.
  intros Hnothing. split.
  - apply load_accounts_nothing_from_file.
    destruct (accounts_file e) as [| |data]; [done | done |].
    cbn [accounts_from_file]. unfold read_data.
    destruct data as [| b | q | s | l | kv]; cbn in *; try done.
    + destruct (bool_decide (is_Some (index 0 "yahoo_accounts" s))); [done |].
      by destruct (bool_decide (is_Some (index 0 "accounts" s))).
    + assert (existsb (fun x => match x with
                                | VStr s => String.eqb s "yahoo_accounts"
                                | _ => false
                                end) l = true) as ->; [| done].
      apply existsb_exists. exists (VStr "yahoo_accounts"). by split.
  - unfold environment_accounts.
    destruct (YAHOO_EMAIL e) as [email|]; [| cbn; lia].
    destruct (YAHOO_PASSWORD e) as [password|]; [| cbn; lia].
    destruct (truthy (VStr email) && truthy (VStr password)); cbn; lia.
Qed.

(** A [yahoo_accounts] entry that is not a list.  The entry is taken as it
    is, and the loop over it is outside the [try] block: [load_accounts]
    raises exactly when the entry is true in the sense of Python (an
    object with a key, a string that is not empty, a number other than 0,
    [true]), or when the environment gives no account and the entry
    cannot be iterated ([null], [false], 0). *)
Theorem load_accounts_entry_not_a_list (e : Env)
    (kv : list (string * value)) (entry : value) :
  accounts_file e = Parsed (VDict kv) ->
  lookup "yahoo_accounts" kv = Some entry ->
  is_list entry = false ->
  load_accounts e = None
  <-> truthy entry = true
      \/ (environment_accounts e = [] /\ iterate entry = None).
Proof.
  intros Hfile Hentry Hlist.
  assert (accounts_from_file (accounts_file e) = entry) as Hfrom.
  { rewrite Hfile. cbn [accounts_from_file]. unfold read_data.
    cbn [contains]. rewrite Hentry.
    rewrite (bool_decide_eq_true_2 _ (mk_is_Some _ _ eq_refl)).
    cbn. by rewrite Hentry. }
  unfold load_accounts, with_fallback. rewrite Hfrom.
  pose proof (filter_enabled_environment e) as Henv.
  destruct entry as [| b | q | s | l | fields]; [| | | | done |].
  - cbn [truthy]. destruct (environment_accounts e) as [|acc l] eqn:He.
    + cbn. split; [intros _; right; by split | done].
    + cbn [iterate mbind option_bind]. rewrite Henv.
      split; [done | intros [? | [? _]]; done].
  - destruct b; cbn [truthy].
    + cbn. split; [by left | done].
    + destruct (environment_accounts e) as [|acc l] eqn:He.
      * cbn. split; [intros _; right; by split | done].
      * cbn [iterate mbind option_bind]. rewrite Henv.
        split; [done | intros [? | [? _]]; done].
  - cbn [truthy]. destruct (decide (q = Q2Qc 0)) as [Hq | Hq].
    + destruct (environment_accounts e) as [|acc l] eqn:He.
      * cbn. split; [intros _; right; by split | done].
      * cbn [iterate mbind option_bind]. rewrite Henv.
        split; [done | intros [? | [? _]]; done].
    + cbn. split; [by left | done].
  - cbn [truthy]. destruct (decide (s = "")) as [-> | Hs].
    + destruct (environment_accounts e) as [|acc l] eqn:He.
      * cbn. split; [done | intros [? | [_ ?]]; done].
      * cbn [iterate mbind option_bind]. rewrite Henv.
        split; [done | intros [? | [? _]]; done].
    + destruct s as [|c s]; [done |]. cbn. split; [by left | done].
  - cbn [truthy]. destruct fields as [|[k v] fields].
    + destruct (environment_accounts e) as [|acc l] eqn:He.
      * cbn. split; [done | intros [? | [_ ?]]; done].
      * cbn [iterate mbind option_bind]. rewrite Henv.
        split; [done | intros [? | [? _]]; done].
    + cbn. split; [by left | done].
Qed.

(** On a file with one enabled and one disabled account. *)
Lemma load_accounts_only_enabled_witness :
  Forall (is_enabled true) [account "a@yahoo.com" true].
Proof.
  exact (proj1 (load_accounts_only_enabled
    (env_unset (Parsed (VList [account "a@yahoo.com" true;
                               account "b@yahoo.com" false])))
    [account "a@yahoo.com" true] eq_refl)).
Defined.

(** On a file whose only account is disabled, with the environment set. *)
Lemma load_accounts_disabled_file_blocks_environment_witness :
  load_accounts
    (env_set (Parsed (VDict [("yahoo_accounts",
                              VList [account "a@yahoo.com" false])])))
  = Some [].
Proof.
  refine (proj1 (load_accounts_disabled_file_blocks_environment
    (env_set (Parsed (VDict [("yahoo_accounts",
                              VList [account "a@yahoo.com" false])])))
    [account "a@yahoo.com" false] eq_refl _ _)).
  - discriminate.
  - constructor; [| constructor]. eexists. split; reflexivity.
Defined.

(** On a file that holds a string, with the environment set. *)
Lemma load_accounts_unusable_file_witness :
  load_accounts (env_set (Parsed (VStr "my accounts")))
  = Some [env_account "env@yahoo.com" "secret"].
Proof.
  exact (proj1 (load_accounts_unusable_file
    (env_set (Parsed (VStr "my accounts"))) I)).
Defined.

(** On a file whose [yahoo_accounts] is one account, not a list of
    accounts. *)
Lemma load_accounts_entry_not_a_list_witness :
  load_accounts
    (env_set (Parsed (VDict [("yahoo_accounts", account "a@yahoo.com" true)])))
  = None.
Proof.
  apply (load_accounts_entry_not_a_list
    (env_set (Parsed (VDict [("yahoo_accounts", account "a@yahoo.com" true)])))
    [("yahoo_accounts", account "a@yahoo.com" true)]
    (account "a@yahoo.com" true) eq_refl eq_refl eq_refl).
  left. reflexivity.
Defined.

End AccountsFacts.
